(** * Honey Rae repairs API: the service-ticket view

    A shallow embedding of [repairsapi/views/ticket_view.py] (class
    [TicketView] and its three serializers) and the properties of its five
    handlers: [list], [retrieve], [create], [update], [destroy].

    The handlers run against the ORM, so each one is a computation over the
    three tables it reads or writes.  A handler either returns a [Response]
    or lets a Python exception escape; whatever was written before the
    exception stays written (the view opens no transaction). *)

From stdpp Require Import gmap strings list fin_maps.

Open Scope Z_scope.

(** ** Values carried by a request

    [request.data] is the parsed body, a dictionary from member names to
    JSON scalars, and the [pk] keyword of a detail route is either absent
    ([None]), an integer or the text of the URL segment.  A request whose
    body cannot be parsed never yields such a dictionary and is outside
    what is modelled here. *)

Inductive value :=
| VNull
| VBool (b : bool)
| VInt (n : Z)
| VStr (s : string).

#[global] Instance value_eq_dec : EqDecision value.
Proof. solve_decision. Defined.

(** [request.auth.user]: the authenticated principal. *)
Record User := { user_id : Z; is_staff : bool }.

Record Request := {
  auth_user : User;
  query_params : gmap string string;
  data : gmap string value
}.

(** ** Tables

    A table maps primary keys to rows. *)

(** Modelled from the spec: the [Employee] model of [repairsapi/models.py],
    which is not part of the view module; the spec's data model gives an
    employee a specialty and a full_name. *)
Record EmployeeRow := { specialty : string; employee_full_name : string }.

(** Modelled from the spec: the [Customer] model of [repairsapi/models.py];
    the spec's data model gives a customer an address, a full_name and the
    principal it belongs to. *)
Record CustomerRow := {
  address : string;
  customer_full_name : string;
  user : Z
}.

(** Modelled from the spec: the [ServiceTicket] model of
    [repairsapi/models.py]; the spec's data model gives a ticket a
    description, an emergency flag, a nullable date_completed, an optional
    employee reference and a required customer reference.  The view
    assigns the payload's values to description and emergency without
    looking at them, so the two columns are typed as payload values; the
    storage itself holds text and a boolean there, and what is stated
    below about the values [create] stores and answers with is stated for
    a text description and a boolean emergency. *)
Record TicketRow := {
  description : value;
  emergency : value;
  date_completed : option string;
  employee : option Z;
  customer : Z
}.

Record DB := {
  tickets : gmap Z TicketRow;
  employees : gmap Z EmployeeRow;
  customers : gmap Z CustomerRow
}.

(** A model instance held by the view: the primary key ([None] until the
    first [save()]) and the column values. *)
Record ServiceTicket := { ticket_id : option Z; fields : TicketRow }.

(** ** Exceptions and responses

    The exceptions of the lookups and payload reads the view makes, and the
    three kinds the framework answers with a status of its own.  Errors the
    storage raises for values it refuses are not among them. *)

Inductive Exception :=
| ServiceTicket_DoesNotExist
| Employee_DoesNotExist
| Customer_DoesNotExist
| RelatedObjectDoesNotExist
| MultipleObjectsReturned
| KeyError (key : string)
| ValueError
| Http404
| PermissionDenied
| APIException (status_code : Z).

Inductive Result (A : Type) :=
| Ok (a : A)
| Raise (e : Exception).
Arguments Ok {A} a.
Arguments Raise {A} e.

(** The nested JSON object produced by [TicketSerializer]. *)
Record EmployeeRep := {
  employee_rep_id : Z;
  employee_rep_specialty : string;
  employee_rep_full_name : string
}.

Record CustomerRep := {
  customer_rep_id : Z;
  customer_rep_address : string;
  customer_rep_full_name : string
}.

Record TicketRep := {
  rep_id : option Z;
  rep_description : value;
  rep_emergency : value;
  rep_date_completed : option string;
  rep_employee : option EmployeeRep;
  rep_customer : CustomerRep
}.

Inductive Body :=
| NoBody
| One (t : TicketRep)
| Many (ts : list TicketRep).

Record Response := { body : Body; status : Z }.

Definition HTTP_200_OK : Z := 200.
Definition HTTP_201_CREATED : Z := 201.
Definition HTTP_204_NO_CONTENT : Z := 204.

(** ** The handler monad: table state threaded through, exceptions escape
    with the state reached so far. *)

Definition View (A : Type) : Type := DB → Result A * DB.

Definition ret {A} (a : A) : View A := λ db, (Ok a, db).
Definition raise {A} (e : Exception) : View A := λ db, (Raise e, db).
Definition bind {A B} (m : View A) (k : A → View B) : View B :=
  λ db, match m db with
        | (Ok a, db') => k a db'
        | (Raise e, db') => (Raise e, db')
        end.
Definition lift {A} (r : Result A) : View A := λ db, (r, db).
Definition query {A} (q : DB → Result A) : View A := λ db, (q db, db).

Declare Scope view_scope.
Delimit Scope view_scope with view.
Notation "x <- m ;; k" := (bind m (λ x, k))
  (at level 100, m at next level, right associativity) : view_scope.
Notation "m ;;; k" := (bind m (λ _, k))
  (at level 100, right associativity) : view_scope.
Open Scope view_scope.

(** Pure counterpart for the read-only parts. *)
Definition rbind {A B} (r : Result A) (k : A → Result B) : Result B :=
  match r with
  | Ok a => k a
  | Raise e => Raise e
  end.

Fixpoint rmap {A B} (f : A → Result B) (l : list A) : Result (list B) :=
  match l with
  | [] => Ok []
  | x :: l' => rbind (f x) (λ y, rbind (rmap f l') (λ ys, Ok (y :: ys)))
  end.

(** ** The ORM calls the view makes *)

Module ORM.
Section Lookup.

(** Python's [int] applied to text, which the ORM uses to turn the text of
    a key into a number; it fails on text that is not a number. *)
Variable int : string → option Z.

(** Preparing a lookup value for an integer primary key: [None] selects
    the rows whose key is NULL (there are none), booleans are the integers
    0 and 1, text goes through [int].  Numbers are taken as they are;
    see [storage_key] for those the storage cannot hold. *)
Definition to_pk (v : value) : Result (option Z) :=
  match v with
  | VNull => Ok None
  | VBool b => Ok (Some (if b then 1 else 0))
  | VInt n => Ok (Some n)
  | VStr s => match int s with
              | Some n => Ok (Some n)
              | None => Raise ValueError
              end
  end.

(** [Model.objects.get(pk=key)] *)
Definition get_pk {Row} (table : gmap Z Row) (missing : Exception)
    (key : value) : Result (Z * Row) :=
  rbind (to_pk key) (λ k,
    match k with
    | None => Raise missing
    | Some n => match table !! n with
                | Some row => Ok (n, row)
                | None => Raise missing
                end
    end).

Definition ServiceTicket_get (db : DB) (key : value) : Result ServiceTicket :=
  rbind (get_pk (tickets db) ServiceTicket_DoesNotExist key)
        (λ r, Ok {| ticket_id := Some r.1; fields := r.2 |}).

Definition Employee_get (db : DB) (key : value) : Result (Z * EmployeeRow) :=
  get_pk (employees db) Employee_DoesNotExist key.

End Lookup.

(** [Customer.objects.get(user=u)]: exactly one row must match. *)
Definition Customer_get (db : DB) (u : User) : Result (Z * CustomerRow) :=
  match filter (λ c, user c.2 = user_id u) (map_to_list (customers db)) with
  | [] => Raise Customer_DoesNotExist
  | [c] => Ok c
  | _ => Raise MultipleObjectsReturned
  end.

(** [ServiceTicket.objects.all()].  The view asks for no order, so the
    order of the rows is the storage's choice; the enumeration of the table
    stands for it, and nothing stated below depends on it. *)
Definition ServiceTicket_all (db : DB) : list ServiceTicket :=
  (λ r, {| ticket_id := Some r.1; fields := r.2 |}) <$> map_to_list (tickets db).

(** [.filter(date_completed__isnull=False)] *)
Definition filter_done (qs : list ServiceTicket) : list ServiceTicket :=
  filter (λ t, date_completed (fields t) ≠ None) qs.

(** [.filter(customer__user=u)]: the join with the customer table. *)
Definition owned_by (db : DB) (u : User) (t : ServiceTicket) : Prop :=
  ∃ c, customers db !! customer (fields t) = Some c ∧ user c = user_id u.

#[global] Instance owned_by_dec db u t : Decision (owned_by db u t).
Proof.
  unfold owned_by. destruct (customers db !! customer (fields t)) as [c|].
  - destruct (decide (user c = user_id u)) as [H|H].
    + left. by exists c.
    + right. intros (c' & Hc & Hu). congruence.
  - right. by intros (c' & Hc & _).
Defined.

Definition filter_customer_user (db : DB) (u : User)
    (qs : list ServiceTicket) : list ServiceTicket :=
  filter (owned_by db u) qs.

(** The key the storage gives a new row.  The storage promises a key that
    is not in use; which one it is is its own business, and the largest
    key plus one stands for it.  Nothing stated below depends on more than
    the key being unused. *)
Definition next_pk (table : gmap Z TicketRow) : Z :=
  1 + map_fold (λ k _ m, Z.max k m) 0 table.

(** [instance.save()]: an INSERT under a new key when the instance has
    none, otherwise the row stored under its key is overwritten.  The
    values are stored as the instance holds them: the checks and
    conversions the columns apply to values that are not text, or not a
    boolean, are not modelled. *)
Definition save (t : ServiceTicket) : View ServiceTicket :=
  λ db,
    let k := match ticket_id t with
             | Some k => k
             | None => next_pk (tickets db)
             end in
    (Ok {| ticket_id := Some k; fields := fields t |},
     {| tickets := <[k := fields t]> (tickets db);
        employees := employees db;
        customers := customers db |}).

(** [instance.delete()] *)
Definition delete (t : ServiceTicket) : View unit :=
  λ db,
    match ticket_id t with
    | Some k => (Ok (),
                 {| tickets := base.delete k (tickets db);
                    employees := employees db;
                    customers := customers db |})
    | None => (Raise ValueError, db)
    end.

End ORM.

(** ** Serializers *)

(** [TicketEmployeeSerializer]: fields id, specialty, full_name. *)
Definition TicketEmployeeSerializer (k : Z) (e : EmployeeRow) : EmployeeRep :=
  {| employee_rep_id := k;
     employee_rep_specialty := specialty e;
     employee_rep_full_name := employee_full_name e |}.

(** [TicketCustomerSerializer]: fields id, address, full_name. *)
Definition TicketCustomerSerializer (k : Z) (c : CustomerRow) : CustomerRep :=
  {| customer_rep_id := k;
     customer_rep_address := address c;
     customer_rep_full_name := customer_full_name c |}.

(** [TicketSerializer(t).data]: the fields in the order of [Meta.fields];
    [employee] and [customer] follow the references of the ticket at the
    time of serialization, a null employee reference serializes as null, and
    a reference to a row that is not there raises.  A text description and
    a boolean emergency are answered as they are. *)
Definition TicketSerializer (db : DB) (t : ServiceTicket) : Result TicketRep :=
  rbind (match employee (fields t) with
         | None => Ok None
         | Some k => match employees db !! k with
                     | Some e => Ok (Some (TicketEmployeeSerializer k e))
                     | None => Raise RelatedObjectDoesNotExist
                     end
         end) (λ employee_data,
  rbind (match customers db !! customer (fields t) with
         | Some c => Ok (TicketCustomerSerializer (customer (fields t)) c)
         | None => Raise RelatedObjectDoesNotExist
         end) (λ customer_data,
  Ok {| rep_id := ticket_id t;
        rep_description := description (fields t);
        rep_emergency := emergency (fields t);
        rep_date_completed := date_completed (fields t);
        rep_employee := employee_data;
        rep_customer := customer_data |})).

(** ** The view *)

(** [d[key]] on a dictionary. *)
Definition getitem (d : gmap string value) (key : string) : Result value :=
  match d !! key with
  | Some v => Ok v
  | None => Raise (KeyError key)
  end.

(** [ticket.employee = assigned_employee]: the reference is the key of
    the employee; the other columns of the instance stay as loaded. *)
Definition with_employee (row : TicketRow) (k : Z) : TicketRow :=
  {| description := description row;
     emergency := emergency row;
     date_completed := date_completed row;
     employee := Some k;
     customer := customer row |}.

Definition set_employee (t : ServiceTicket) (k : Z) : ServiceTicket :=
  {| ticket_id := ticket_id t; fields := with_employee (fields t) k |}.

Module TicketView.
Section Handlers.

Variable int : string → option Z.

Definition destroy (request : Request) (pk : value) : View Response :=
  ticket <- query (λ db, ORM.ServiceTicket_get int db pk);;
  ORM.delete ticket;;;
  ret {| body := NoBody; status := HTTP_204_NO_CONTENT |}.

(** [ServiceTicket()] followed by the three assignments: the new instance
    has no key; the columns the view does not assign keep the model's
    defaults, a null employee and a null date_completed. *)
Definition create (request : Request) : View Response :=
  new_ticket_customer <- query (λ db, ORM.Customer_get db (auth_user request));;
  new_ticket_description <- lift (getitem (data request) "description");;
  new_ticket_emergency <- lift (getitem (data request) "emergency");;
  new_ticket <- ORM.save
    {| ticket_id := None;
       fields := {| description := new_ticket_description;
                    emergency := new_ticket_emergency;
                    date_completed := None;
                    employee := None;
                    customer := new_ticket_customer.1 |} |};;
  serialized <- query (λ db, TicketSerializer db new_ticket);;
  ret {| body := One serialized; status := HTTP_201_CREATED |}.

Definition retrieve (request : Request) (pk : value) : View Response :=
  ticket <- query (λ db, ORM.ServiceTicket_get int db pk);;
  serialized <- query (λ db, TicketSerializer db ticket);;
  ret {| body := One serialized; status := HTTP_200_OK |}.

Definition update (request : Request) (pk : value) : View Response :=
  ticket <- query (λ db, ORM.ServiceTicket_get int db pk);;
  employee_id <- lift (getitem (data request) "employee");;
  assigned_employee <- query (λ db, ORM.Employee_get int db employee_id);;
  ORM.save (set_employee ticket assigned_employee.1);;;
  ret {| body := NoBody; status := HTTP_204_NO_CONTENT |}.

End Handlers.

(** The queryset [list] serializes: for staff all tickets, narrowed to the
    completed ones when the [status] parameter is ["done"] (["all"] and
    every other text change nothing); for everyone else the tickets of the
    principal's customer, whatever the parameters. *)
Definition service_tickets (request : Request) (db : DB) : list ServiceTicket :=
  if is_staff (auth_user request) then
    let service_tickets := ORM.ServiceTicket_all db in
    match query_params request !! "status" with
    | Some s =>
        let service_tickets :=
          if decide (s = "done") then ORM.filter_done service_tickets
          else service_tickets in
        if decide (s = "all") then service_tickets else service_tickets
    | None => service_tickets
    end
  else
    ORM.filter_customer_user db (auth_user request) (ORM.ServiceTicket_all db).

Definition list (request : Request) : View Response :=
  serialized <- query (λ db, rmap (TicketSerializer db) (service_tickets request db));;
  ret {| body := Many serialized; status := HTTP_200_OK |}.

End TicketView.

(** ** What the framework answers

    The view is dispatched by the REST framework, whose exception handler
    turns [Http404], [PermissionDenied] and its own [APIException]s into
    responses with their status code and leaves every other exception
    unhandled; an unhandled exception is answered with a server error. *)

Definition HTTP_500_INTERNAL_SERVER_ERROR : Z := 500.

Definition exception_handler (exc : Exception) : option Z :=
  match exc with
  | Http404 => Some 404
  | PermissionDenied => Some 403
  | APIException status_code => Some status_code
  | _ => None
  end.

Definition http_status (r : Result Response) : Z :=
  match r with
  | Ok response => status response
  | Raise exc => match exception_handler exc with
                 | Some code => code
                 | None => HTTP_500_INTERNAL_SERVER_ERROR
                 end
  end.

(** ** Integrity of the tables

    The storage enforces the references of a ticket: its customer is a row
    of the customer table, and its employee, when it has one, a row of the
    employee table. *)

Definition fk_ok (db : DB) : Prop :=
  map_Forall (λ _ row,
    is_Some (customers db !! customer row) ∧
    match employee row with
    | Some e => is_Some (employees db !! e)
    | None => True
    end) (tickets db).

#[global] Instance fk_ok_dec db : Decision (fk_ok db).
Proof. unfold fk_ok. apply map_Forall_dec. intros k row. destruct (employee row); apply _. Defined.

(** A ticket instance as it comes out of the table. *)
Definition stored (db : DB) (t : ServiceTicket) : Prop :=
  ∃ k, ticket_id t = Some k ∧ tickets db !! k = Some (fields t).

(** [reps] are the representations of exactly the stored tickets that
    satisfy [P], one for each, in some order. *)
Definition represents (db : DB) (P : ServiceTicket → Prop)
    (reps : list TicketRep) : Prop :=
  ∃ ts, NoDup ts ∧
        (∀ t, t ∈ ts ↔ stored db t ∧ P t) ∧
        Forall2 (λ t rep, TicketSerializer db t = Ok rep) ts reps.

(** [c], stored under key [k], is the customer record of principal [u]. *)
Definition linked_customer (db : DB) (u : User) (k : Z) (c : CustomerRow) : Prop :=
  customers db !! k = Some c ∧ user c = user_id u.

(** ** Keys the storage holds

    The keys of a table are 64-bit signed integers.  A lookup with a number
    outside this range is refused by the storage with an error of its own,
    which is not modelled: what is stated below about a lookup that finds
    nothing is stated for keys in this range. *)
Definition storage_key (k : Z) : Prop := - 2 ^ 63 ≤ k < 2 ^ 63.

(** ** Tables after a write *)

(** The row [create] stores for a payload and a customer key. *)
Definition new_row (v_description v_emergency : value) (k : Z) : TicketRow :=
  {| description := v_description; emergency := v_emergency;
     date_completed := None; employee := None; customer := k |}.

(** The tables after employee [ke] was put on ticket [k]. *)
Definition assigned (db : DB) (k : Z) (row : TicketRow) (ke : Z) : DB :=
  {| tickets := <[k := with_employee row ke]> (tickets db);
     employees := employees db;
     customers := customers db |}.

(** ** Sample data

    Sample tables and requests: customer 1 belongs to principal 10 and
    owns ticket 1, customer 2 to principal 11 and owns ticket 2, which
    employee 3 completed; principal 99 is staff. *)
Module Sample.

Definition db : DB :=
  {| tickets :=
       {[ 1 := {| description := VStr "leaky faucet"; emergency := VBool false;
                  date_completed := None; employee := None; customer := 1 |};
          2 := {| description := VStr "broken door"; emergency := VBool true;
                  date_completed := Some "2023-01-01"; employee := Some 3;
                  customer := 2 |} ]};
     employees :=
       {[ 3 := {| specialty := "doors"; employee_full_name := "Emma Beaton" |};
          4 := {| specialty := "pipes"; employee_full_name := "Ryan Tanay" |} ]};
     customers :=
       {[ 1 := {| address := "1 Main St"; customer_full_name := "Ann Lee"; user := 10 |};
          2 := {| address := "2 Oak Ave"; customer_full_name := "Bo Diaz"; user := 11 |} ]} |}.

Definition empty_db : DB := {| tickets := ∅; employees := ∅; customers := ∅ |}.

Definition ann : User := {| user_id := 10; is_staff := false |}.
Definition bo : User := {| user_id := 11; is_staff := false |}.
Definition stranger : User := {| user_id := 12; is_staff := false |}.
Definition staff : User := {| user_id := 99; is_staff := true |}.

Definition request (u : User) (q : gmap string string)
    (d : gmap string value) : Request :=
  {| auth_user := u; query_params := q; data := d |}.

(** An [int] that accepts no text: the samples use numeric keys. *)
Definition int : string → option Z := λ _, None.

End Sample.

(** * Properties *)

(** ** Running a handler *)

Ltac run_view :=
  unfold TicketView.retrieve, TicketView.update, TicketView.destroy,
         TicketView.create, TicketView.list,
         bind, query, lift, ret, raise; simpl.

(** ** Lookups *)

Section LookupFacts.

Variable int : string → option Z.

Lemma get_pk_Ok {Row} (table : gmap Z Row) missing key n row :
  ORM.get_pk int table missing key = Ok (n, row) ↔
  ORM.to_pk int key = Ok (Some n) ∧ table !! n = Some row.
Proof.
  unfold ORM.get_pk. destruct (ORM.to_pk int key) as [[m|]|e]; simpl.
  - destruct (table !! m) as [r|] eqn:Hm; split.
    + intros [= -> ->]. done.
    + intros [[= ->] Hr]. congruence.
    + done.
    + intros [[= ->] Hr]. congruence.
  - split; [done | by intros [? _]].
  - split; [done | by intros [? _]].
Qed.

Lemma get_pk_Raise {Row} (table : gmap Z Row) missing key e :
  ORM.get_pk int table missing key = Raise e →
  e = missing ∨ e = ValueError.
Proof.
  unfold ORM.get_pk, ORM.to_pk.
  destruct key as [|b|n|s]; simpl.
  - intros [= <-]. by left.
  - destruct (table !! _); [done|]. intros [= <-]. by left.
  - destruct (table !! _); [done|]. intros [= <-]. by left.
  - destruct (int s) as [n|]; simpl.
    + destruct (table !! _); [done|]. intros [= <-]. by left.
    + intros [= <-]. by right.
Qed.

Lemma ServiceTicket_get_Ok db key t :
  ORM.ServiceTicket_get int db key = Ok t ↔
  ∃ k, ORM.to_pk int key = Ok (Some k) ∧
       tickets db !! k = Some (fields t) ∧ ticket_id t = Some k.
Proof.
  unfold ORM.ServiceTicket_get.
  destruct (ORM.get_pk int (tickets db) ServiceTicket_DoesNotExist key)
    as [[n row]|e] eqn:Hget; simpl.
  - apply get_pk_Ok in Hget as [Hk Hrow]. split.
    + intros [= <-]. by exists n.
    + intros (k & Hk' & Hrow' & Hid). destruct t as [i f]; simpl in *.
      rewrite Hk in Hk'. injection Hk' as <-. congruence.
  - split; [done|]. intros (k & Hk & Hrow & _).
    assert (ORM.get_pk int (tickets db) ServiceTicket_DoesNotExist key
            = Ok (k, fields t)) as Hok by by apply get_pk_Ok.
    congruence.
Qed.

Lemma ServiceTicket_get_Raise db key e :
  ORM.ServiceTicket_get int db key = Raise e →
  e = ServiceTicket_DoesNotExist ∨ e = ValueError.
Proof.
  unfold ORM.ServiceTicket_get.
  destruct (ORM.get_pk int (tickets db) ServiceTicket_DoesNotExist key)
    as [r|e'] eqn:Hget; simpl; [done|].
  intros [= <-]. by apply get_pk_Raise in Hget.
Qed.

End LookupFacts.

Lemma Customer_get_Ok db u k c :
  ORM.Customer_get db u = Ok (k, c) → linked_customer db u k c.
Proof.
  unfold ORM.Customer_get, linked_customer.
  destruct (filter _ _) as [|x [|y l]] eqn:Hf; [done| |done].
  intros [= ->].
  assert ((k, c) ∈ filter (λ c : Z * CustomerRow, user c.2 = user_id u)
                          (map_to_list (customers db))) as Hin
    by (rewrite Hf; apply list_elem_of_here).
  apply list_elem_of_filter in Hin as [Hu Hin].
  by apply elem_of_map_to_list in Hin.
Qed.

Lemma Customer_get_none db u :
  (∀ k c, ¬ linked_customer db u k c) →
  ORM.Customer_get db u = Raise Customer_DoesNotExist.
Proof.
  intros Hnone. unfold ORM.Customer_get.
  destruct (filter _ _) as [|[k c] l] eqn:Hf; [done|].
  exfalso. apply (Hnone k c).
  assert ((k, c) ∈ filter (λ c : Z * CustomerRow, user c.2 = user_id u)
                          (map_to_list (customers db))) as Hin
    by (rewrite Hf; apply list_elem_of_here).
  apply list_elem_of_filter in Hin as [Hu Hin].
  by apply elem_of_map_to_list in Hin.
Qed.

Lemma Customer_get_Raise db u e :
  ORM.Customer_get db u = Raise e →
  e = Customer_DoesNotExist ∨ e = MultipleObjectsReturned.
Proof.
  unfold ORM.Customer_get.
  destruct (filter _ _) as [|x [|y l]]; [|done|]; intros [= <-]; auto.
Qed.

(** [Customer.objects.get(user=u)] succeeds exactly when the principal
    has one customer record and no other. *)
Lemma Customer_get_unique db u k c :
  linked_customer db u k c →
  (∀ k' c', linked_customer db u k' c' → k' = k) →
  ORM.Customer_get db u = Ok (k, c).
Proof.
  intros [Hk Hu] Huniq. unfold ORM.Customer_get.
  set (l := filter (λ c : Z * CustomerRow, user c.2 = user_id u)
                   (map_to_list (customers db))).
  assert (NoDup l) as Hnd by apply NoDup_filter, NoDup_map_to_list.
  assert (∀ x, x ∈ l → x = (k, c)) as Hall.
  { intros [k' c'] Hin. apply list_elem_of_filter in Hin as [Hu' Hin].
    apply elem_of_map_to_list in Hin.
    assert (k' = k) as -> by by apply (Huniq k' c').
    congruence. }
  assert ((k, c) ∈ l) as Hin.
  { apply list_elem_of_filter. split; [done|]. by apply elem_of_map_to_list. }
  destruct l as [|x [|y l']].
  - by apply not_elem_of_nil in Hin.
  - by rewrite (Hall x (list_elem_of_here _ _)).
  - exfalso. apply NoDup_cons in Hnd as [Hx _]. apply Hx.
    rewrite (Hall x (list_elem_of_here _ _)).
    rewrite <- (Hall y (list_elem_of_further _ _ _ (list_elem_of_here _ _))).
    apply list_elem_of_here.
Qed.

(** The key of a new row is not in use. *)
Lemma next_pk_fresh (table : gmap Z TicketRow) :
  table !! ORM.next_pk table = None.
Proof.
  unfold ORM.next_pk.
  assert (∀ k, is_Some (table !! k) →
               k ≤ map_fold (λ k (_ : TicketRow) m, Z.max k m) 0 table) as Hmax.
  { apply (map_fold_weak_ind
             (λ r (m : gmap Z TicketRow), ∀ k, is_Some (m !! k) → k ≤ r)).
    - intros k [x Hx]. by rewrite lookup_empty in Hx.
    - intros i x m r _ IH k Hk.
      destruct (decide (i = k)) as [->|Hne]; [lia|].
      rewrite lookup_insert_ne in Hk by done. specialize (IH k Hk). lia. }
  destruct (table !! _) eqn:Hl; [|done].
  specialize (Hmax _ (mk_is_Some _ _ Hl)). lia.
Qed.

(** ** Querysets and serialization *)

Lemma ServiceTicket_all_stored db t :
  t ∈ ORM.ServiceTicket_all db ↔ stored db t.
Proof.
  unfold ORM.ServiceTicket_all, stored. rewrite list_elem_of_fmap. split.
  - intros ([k row] & -> & Hin). apply elem_of_map_to_list in Hin.
    by exists k.
  - intros (k & Hid & Hrow). exists (k, fields t). split.
    + destruct t; simpl in *. by subst.
    + by apply elem_of_map_to_list.
Qed.

Lemma ServiceTicket_all_NoDup db : NoDup (ORM.ServiceTicket_all db).
Proof.
  unfold ORM.ServiceTicket_all. apply NoDup_fmap_2.
  - intros [k1 r1] [k2 r2] [= -> ->]. done.
  - apply NoDup_map_to_list.
Qed.

Lemma rmap_Ok {A B} (f : A → Result B) l ys :
  rmap f l = Ok ys ↔ Forall2 (λ x y, f x = Ok y) l ys.
Proof.
  revert ys. induction l as [|x l IH]; intros ys; simpl.
  - split; [intros [= <-]; constructor | by inversion 1].
  - destruct (f x) as [y|e] eqn:Hx; simpl.
    + destruct (rmap f l) as [ys'|e] eqn:Hl; simpl.
      * split.
        -- intros [= <-]. constructor; [done|]. by apply IH.
        -- inversion 1 as [|? y' ? ys'' Hy Hrest]; subst.
           apply IH in Hrest. congruence.
      * split; [done|]. inversion 1 as [|? y' ? ys'' Hy Hrest]; subst.
        apply IH in Hrest. done.
    + split; [done|]. inversion 1; congruence.
Qed.

Lemma rmap_total {A B} (f : A → Result B) l :
  Forall (λ x, ∃ y, f x = Ok y) l → ∃ ys, rmap f l = Ok ys.
Proof.
  induction 1 as [|x l [y Hy] _ [ys Hys]]; simpl; [by eexists|].
  rewrite Hy, Hys. by eexists.
Qed.

Lemma TicketSerializer_stored db t :
  fk_ok db → stored db t → ∃ rep, TicketSerializer db t = Ok rep.
Proof.
  intros Hfk (k & _ & Hrow). apply Hfk in Hrow as [[c Hc] He].
  unfold TicketSerializer. rewrite Hc.
  destruct (employee (fields t)) as [e|]; simpl; [|by eexists].
  destruct He as [r ->]. simpl. by eexists.
Qed.

(** Serializing a selection of the stored tickets succeeds and yields one
    representation for each selected ticket. *)
Lemma serialize_selection db (P : ServiceTicket → Prop) ts :
  fk_ok db → NoDup ts → (∀ t, t ∈ ts ↔ stored db t ∧ P t) →
  ∃ reps, rmap (TicketSerializer db) ts = Ok reps ∧
          represents db P reps ∧
          length reps = length ts.
Proof.
  intros Hfk Hnd Hts.
  destruct (rmap_total (TicketSerializer db) ts) as [reps Hreps].
  { apply Forall_forall. intros t Ht. apply Hts in Ht as [Ht _].
    by apply TicketSerializer_stored. }
  exists reps. apply rmap_Ok in Hreps as Hall. split_and!; [done| |].
  - by exists ts.
  - symmetry. by eapply Forall2_length.
Qed.

Lemma ServiceTicket_all_length db :
  length (ORM.ServiceTicket_all db) = size (tickets db).
Proof.
  unfold ORM.ServiceTicket_all. by rewrite length_fmap, length_map_to_list.
Qed.

(** ** Lookups that fail *)

Lemma ServiceTicket_get_unresolved int db pk :
  (∀ k, ORM.to_pk int pk = Ok (Some k) → tickets db !! k = None) →
  ORM.ServiceTicket_get int db pk =
    Raise (match ORM.to_pk int pk with
           | Raise x => x
           | Ok _ => ServiceTicket_DoesNotExist
           end).
Proof.
  intros Hun. unfold ORM.ServiceTicket_get, ORM.get_pk.
  destruct (ORM.to_pk int pk) as [[k|]|x]; simpl; [|done..].
  by rewrite (Hun k eq_refl).
Qed.

(** C1, as the code has it: for every ticket id that does not resolve to
    an existing ticket (no id, text, or a number the storage can hold as a
    key and under which no ticket is stored), [retrieve], [update] and
    [destroy] let the exception of the lookup escape and change no table.
    The exception is [ValueError] exactly when the id is text that is not
    a number, and [ServiceTicket.DoesNotExist] in every other case.  It is
    none of those the framework answers with a status of its own, so the
    answer is a server error (500). *)
Theorem unresolved_ticket_raises int request pk db :
  (∀ k, ORM.to_pk int pk = Ok (Some k) →
        storage_key k ∧ tickets db !! k = None) →
  ∃ e, TicketView.retrieve int request pk db = (Raise e, db) ∧
       TicketView.update int request pk db = (Raise e, db) ∧
       TicketView.destroy int request pk db = (Raise e, db) ∧
       ((∃ s, pk = VStr s ∧ int s = None) → e = ValueError) ∧
       ((∀ s, pk = VStr s → is_Some (int s)) → e = ServiceTicket_DoesNotExist) ∧
       exception_handler e = None ∧
       http_status (Raise e) = HTTP_500_INTERNAL_SERVER_ERROR.
Proof.
  intros Hun.
  assert (∀ k, ORM.to_pk int pk = Ok (Some k) → tickets db !! k = None) as Hnone
    by (intros k Hk; by destruct (Hun k Hk)).
  pose proof (ServiceTicket_get_unresolved int db pk Hnone) as Hget.
  eexists. run_view. rewrite Hget. split_and!; try done.
  - intros (s & -> & Hs). simpl. by rewrite Hs.
  - intros Hnum. destruct pk as [|b|n|s]; simpl; try done.
    by destruct (Hnum s eq_refl) as [n ->].
  - destruct pk as [|b|n|s]; simpl; try done. by destruct (int s).
  - destruct pk as [|b|n|s]; simpl; try done. by destruct (int s).
Qed.

Lemma unresolved_ticket_raises_witness :
  TicketView.retrieve Sample.int (Sample.request Sample.ann ∅ ∅) (VInt 7) Sample.db
  = (Raise ServiceTicket_DoesNotExist, Sample.db).
Proof.
  destruct (unresolved_ticket_raises Sample.int (Sample.request Sample.ann ∅ ∅)
              (VInt 7) Sample.db) as (e & Hr & _ & _ & _ & He & _).
  - intros k [= <-]. split; [|vm_compute; reflexivity].
    unfold storage_key. split; [vm_compute; discriminate|vm_compute; reflexivity].
  - rewrite Hr. rewrite He; [reflexivity|]. intros s Hs. discriminate Hs.
Defined.

(** C1 as stated fails: with no ticket 1 in the table, each of the three
    handlers raises [ServiceTicket.DoesNotExist], which is answered with
    500 and not with 404. *)
Lemma unresolved_ticket_not_404 :
  let request := Sample.request Sample.ann ∅ {[ "employee" := VInt 3 ]} in
  tickets Sample.empty_db !! 1 = None ∧
  TicketView.retrieve Sample.int request (VInt 1) Sample.empty_db
    = (Raise ServiceTicket_DoesNotExist, Sample.empty_db) ∧
  TicketView.update Sample.int request (VInt 1) Sample.empty_db
    = (Raise ServiceTicket_DoesNotExist, Sample.empty_db) ∧
  TicketView.destroy Sample.int request (VInt 1) Sample.empty_db
    = (Raise ServiceTicket_DoesNotExist, Sample.empty_db) ∧
  http_status (Raise ServiceTicket_DoesNotExist) = 500 ∧
  http_status (Raise ServiceTicket_DoesNotExist) ≠ 404.
Proof. vm_compute. split_and!; done. Qed.

(** ** [create] on incomplete input *)

(** C2, as the code has it: when the principal has no customer record, or
    the payload lacks [description] or [emergency], [create] lets an
    exception escape and no table is changed, so no ticket is persisted.
    The customer is looked up first: without a record the exception is
    [Customer.DoesNotExist] whatever the payload holds.  With the record
    found it is [KeyError] for [description] when that key is missing,
    and [KeyError] for [emergency] when only that key is missing.  The
    view does not turn the exception into a client error: the answer is a
    server error (500). *)
Theorem create_incomplete_raises request db :
  data request !! "description" = None ∨
  data request !! "emergency" = None ∨
  (∀ k c, ¬ linked_customer db (auth_user request) k c) →
  ∃ e, TicketView.create request db = (Raise e, db) ∧
       ((∀ k c, ¬ linked_customer db (auth_user request) k c) →
        e = Customer_DoesNotExist) ∧
       (∀ kc, ORM.Customer_get db (auth_user request) = Ok kc →
              data request !! "description" = None →
              e = KeyError "description") ∧
       (∀ kc v, ORM.Customer_get db (auth_user request) = Ok kc →
                data request !! "description" = Some v →
                e = KeyError "emergency") ∧
       (∀ x, ORM.Customer_get db (auth_user request) = Raise x → e = x) ∧
       (e = Customer_DoesNotExist ∨ e = MultipleObjectsReturned ∨
        e = KeyError "description" ∨ e = KeyError "emergency") ∧
       exception_handler e = None ∧
       http_status (Raise e) = HTTP_500_INTERNAL_SERVER_ERROR.
Proof.
  intros H. run_view. unfold getitem.
  destruct (ORM.Customer_get db (auth_user request)) as [[k c]|e] eqn:Hc.
  - apply Customer_get_Ok in Hc.
    destruct (data request !! "description") as [v1|] eqn:Hd.
    + destruct (data request !! "emergency") as [v2|] eqn:He.
      * exfalso. destruct H as [H|[H|H]]; [done..|]. by apply (H k c).
      * exists (KeyError "emergency"). split_and!; auto; try done.
        intros Hn. by destruct (Hn k c).
    + exists (KeyError "description"). split_and!; auto; try done.
      intros Hn. by destruct (Hn k c).
  - exists e. split; [done|].
    pose proof (Customer_get_Raise _ _ _ Hc) as He. split_and!; try done.
    + intros Hn. rewrite (Customer_get_none _ _ Hn) in Hc. congruence.
    + by intros x [= <-].
    + tauto.
    + by destruct He as [-> | ->].
    + by destruct He as [-> | ->].
Qed.

Lemma create_incomplete_raises_witness :
  TicketView.create
    (Sample.request Sample.ann ∅ {[ "description" := VStr "no heat" ]}) Sample.db
  = (Raise (KeyError "emergency"), Sample.db).
Proof.
  destruct (create_incomplete_raises
              (Sample.request Sample.ann ∅ {[ "description" := VStr "no heat" ]})
              Sample.db) as (e & Hr & _ & _ & Hkey & _).
  - right. left. vm_compute. reflexivity.
  - rewrite Hr.
    rewrite (Hkey (1, {| address := "1 Main St"; customer_full_name := "Ann Lee";
                         user := 10 |}) (VStr "no heat"));
      [reflexivity | vm_compute; reflexivity | vm_compute; reflexivity].
Defined.

(** C2 as stated fails: a payload without [description] makes [create]
    raise [KeyError], answered with 500 and not with 400; so does a
    principal without customer record, with [Customer.DoesNotExist]. *)
Lemma create_incomplete_not_400 :
  let payload : gmap string value := {[ "emergency" := VBool true ]} in
  let full : gmap string value :=
    {[ "description" := VStr "leaky faucet"; "emergency" := VBool true ]} in
  payload !! "description" = None ∧
  TicketView.create (Sample.request Sample.ann ∅ payload) Sample.db
    = (Raise (KeyError "description"), Sample.db) ∧
  http_status (Raise (KeyError "description")) = 500 ∧
  http_status (Raise (KeyError "description")) ≠ 400 ∧
  TicketView.create (Sample.request Sample.stranger ∅ full) Sample.db
    = (Raise Customer_DoesNotExist, Sample.db) ∧
  http_status (Raise Customer_DoesNotExist) ≠ 400.
Proof. vm_compute. split_and!; done. Qed.

(** ** [create] on complete input *)

Lemma create_complete request db v_description v_emergency k c :
  data request !! "description" = Some v_description →
  data request !! "emergency" = Some v_emergency →
  ORM.Customer_get db (auth_user request) = Ok (k, c) →
  TicketView.create request db =
    (Ok {| body := One {| rep_id := Some (ORM.next_pk (tickets db));
                          rep_description := v_description;
                          rep_emergency := v_emergency;
                          rep_date_completed := None;
                          rep_employee := None;
                          rep_customer := TicketCustomerSerializer k c |};
           status := HTTP_201_CREATED |},
     {| tickets := <[ORM.next_pk (tickets db) :=
                       new_row v_description v_emergency k]> (tickets db);
        employees := employees db;
        customers := customers db |}).
Proof.
  intros Hd He Hc.
  apply Customer_get_Ok in Hc as Hlinked.
  run_view. unfold getitem, ORM.save. rewrite Hc, Hd, He. simpl.
  unfold TicketSerializer. simpl.
  destruct Hlinked as [-> _]. done.
Qed.

(** C5: with a text [description] and a boolean [emergency] in the
    payload and a customer record for the principal, [create] stores one
    new ticket, under a key not in use before, whose customer is that
    record, whose employee and date_completed are null and whose
    description and emergency are the payload's; the other rows and tables
    are as before, and the answer is the representation of the new ticket
    with status 201. *)
Theorem create_persists request db (text : string) (flag : bool) k c :
  data request !! "description" = Some (VStr text) →
  data request !! "emergency" = Some (VBool flag) →
  ORM.Customer_get db (auth_user request) = Ok (k, c) →
  ∃ new,
    linked_customer db (auth_user request) k c ∧
    tickets db !! new = None ∧
    TicketView.create request db =
      (Ok {| body := One {| rep_id := Some new;
                            rep_description := VStr text;
                            rep_emergency := VBool flag;
                            rep_date_completed := None;
                            rep_employee := None;
                            rep_customer := TicketCustomerSerializer k c |};
             status := HTTP_201_CREATED |},
       {| tickets := <[new := new_row (VStr text) (VBool flag) k]> (tickets db);
          employees := employees db;
          customers := customers db |}).
Proof.
  intros Hd He Hc. exists (ORM.next_pk (tickets db)). split_and!.
  - by apply Customer_get_Ok.
  - apply next_pk_fresh.
  - by apply create_complete.
Qed.

Lemma create_persists_witness :
  ∃ new,
    tickets Sample.db !! new = None ∧
    TicketView.create
      (Sample.request Sample.ann ∅
         {[ "description" := VStr "no heat"; "emergency" := VBool true ]})
      Sample.db =
    (Ok {| body := One {| rep_id := Some new;
                          rep_description := VStr "no heat";
                          rep_emergency := VBool true;
                          rep_date_completed := None;
                          rep_employee := None;
                          rep_customer :=
                            {| customer_rep_id := 1;
                               customer_rep_address := "1 Main St";
                               customer_rep_full_name := "Ann Lee" |} |};
           status := 201 |},
     {| tickets := <[new := new_row (VStr "no heat") (VBool true) 1]>
                     (tickets Sample.db);
        employees := employees Sample.db;
        customers := customers Sample.db |}).
Proof.
  destruct (create_persists
    (Sample.request Sample.ann ∅
       {[ "description" := VStr "no heat"; "emergency" := VBool true ]})
    Sample.db "no heat" true 1
    {| address := "1 Main St"; customer_full_name := "Ann Lee"; user := 10 |})
    as (new & _ & Hfresh & Hrun); [vm_compute; reflexivity..|].
  exists new. split; [exact Hfresh | exact Hrun].
Defined.

(** C10: [create] reads the payload at [description] and [emergency]
    only.  Two payloads that agree on these two keys, whatever else they
    hold ([employee], [date_completed], [customer], ...), give the same
    answer and the same tables; and whenever [create] succeeds, the row it
    stored has a null employee, a null date_completed and the customer
    record of the principal. *)
Theorem create_ignores_other_keys u q (d d' : gmap string value) db :
  d !! "description" = d' !! "description" →
  d !! "emergency" = d' !! "emergency" →
  TicketView.create {| auth_user := u; query_params := q; data := d |} db =
  TicketView.create {| auth_user := u; query_params := q; data := d' |} db ∧
  ∀ response db',
    TicketView.create {| auth_user := u; query_params := q; data := d' |} db
      = (Ok response, db') →
    ∃ new row k c rep,
      tickets db !! new = None ∧
      tickets db' = <[new := row]> (tickets db) ∧
      employee row = None ∧
      date_completed row = None ∧
      customer row = k ∧
      linked_customer db u k c ∧
      body response = One rep ∧
      rep_employee rep = None ∧
      rep_date_completed rep = None ∧
      rep_customer rep = TicketCustomerSerializer k c.
Proof.
  intros Hd He. split.
  - run_view. unfold getitem. by rewrite Hd, He.
  - intros response db' Hrun.
    destruct (ORM.Customer_get db u) as [[k c]|e] eqn:Hc;
      [|revert Hrun; run_view; by rewrite Hc].
    destruct (d' !! "description") as [v1|] eqn:Hv1;
      [|revert Hrun; run_view; unfold getitem; by rewrite Hc, Hv1].
    destruct (d' !! "emergency") as [v2|] eqn:Hv2;
      [|revert Hrun; run_view; unfold getitem; by rewrite Hc, Hv1, Hv2].
    rewrite (create_complete {| auth_user := u; query_params := q; data := d' |}
               db v1 v2 k c Hv1 Hv2 Hc) in Hrun.
    injection Hrun as <- <-.
    eexists _, _, k, c, _. split_and!; try done.
    + apply next_pk_fresh.
    + by apply Customer_get_Ok.
Qed.

Lemma create_ignores_other_keys_witness :
  TicketView.create
    (Sample.request Sample.ann ∅
       {[ "description" := VStr "no heat"; "emergency" := VBool true;
          "employee" := VInt 3; "date_completed" := VStr "2023-02-02";
          "customer" := VInt 2 ]}) Sample.db =
  TicketView.create
    (Sample.request Sample.ann ∅
       {[ "description" := VStr "no heat"; "emergency" := VBool true ]})
    Sample.db.
Proof.
  refine (proj1 (create_ignores_other_keys Sample.ann ∅
    {[ "description" := VStr "no heat"; "emergency" := VBool true;
       "employee" := VInt 3; "date_completed" := VStr "2023-02-02";
       "customer" := VInt 2 ]}
    {[ "description" := VStr "no heat"; "emergency" := VBool true ]}
    Sample.db _ _)); vm_compute; reflexivity.
Defined.

(** ** [update] *)

Section Update.

Variable int : string → option Z.

Lemma update_complete request pk db t v ke e :
  ORM.ServiceTicket_get int db pk = Ok t →
  data request !! "employee" = Some v →
  ORM.Employee_get int db v = Ok (ke, e) →
  ∃ k, ticket_id t = Some k ∧
       tickets db !! k = Some (fields t) ∧
       TicketView.update int request pk db =
         (Ok {| body := NoBody; status := HTTP_204_NO_CONTENT |},
          assigned db k (fields t) ke).
Proof.
  intros Ht Hv He.
  apply ServiceTicket_get_Ok in Ht as Hk. destruct Hk as (k & _ & Hrow & Hid).
  exists k. split_and!; [done..|].
  run_view. unfold getitem, ORM.save. rewrite Ht, Hv, He. simpl.
  by rewrite Hid.
Qed.

(** Every successful [update] is of that form. *)
Lemma update_Ok_inv request pk db response db' :
  TicketView.update int request pk db = (Ok response, db') →
  ∃ t k v ke e,
    ORM.ServiceTicket_get int db pk = Ok t ∧
    ticket_id t = Some k ∧
    tickets db !! k = Some (fields t) ∧
    data request !! "employee" = Some v ∧
    ORM.Employee_get int db v = Ok (ke, e) ∧
    employees db !! ke = Some e ∧
    response = {| body := NoBody; status := HTTP_204_NO_CONTENT |} ∧
    db' = assigned db k (fields t) ke.
Proof.
  intros Hrun.
  destruct (ORM.ServiceTicket_get int db pk) as [t|x] eqn:Ht;
    [|revert Hrun; run_view; by rewrite Ht].
  destruct (data request !! "employee") as [v|] eqn:Hv;
    [|revert Hrun; run_view; unfold getitem; by rewrite Ht, Hv].
  destruct (ORM.Employee_get int db v) as [[ke e]|x] eqn:He;
    [|revert Hrun; run_view; unfold getitem; by rewrite Ht, Hv, He].
  destruct (update_complete request pk db t v ke e Ht Hv He)
    as (k & Hid & Hrow & Hupd).
  rewrite Hupd in Hrun. injection Hrun as <- <-.
  exists t, k, v, ke, e. split_and!; try done.
  by apply get_pk_Ok in He as [_ He].
Qed.

(** C6: on an existing ticket, with an [employee] that resolves to an
    existing employee, [update] stores that employee on the ticket and
    answers with an empty body and status 204; a second [update] of the
    same ticket with another existing employee then succeeds the same way
    and leaves the second employee on the ticket. *)
Theorem update_assigns_employee request request' pk db t v ke e v' ke' e' :
  ORM.ServiceTicket_get int db pk = Ok t →
  data request !! "employee" = Some v →
  ORM.Employee_get int db v = Ok (ke, e) →
  data request' !! "employee" = Some v' →
  ORM.Employee_get int db v' = Ok (ke', e') →
  ∃ k db1 db2,
    ticket_id t = Some k ∧
    TicketView.update int request pk db =
      (Ok {| body := NoBody; status := HTTP_204_NO_CONTENT |}, db1) ∧
    tickets db1 !! k = Some (with_employee (fields t) ke) ∧
    employee (with_employee (fields t) ke) = Some ke ∧
    TicketView.update int request' pk db1 =
      (Ok {| body := NoBody; status := HTTP_204_NO_CONTENT |}, db2) ∧
    tickets db2 !! k = Some (with_employee (fields t) ke') ∧
    employee (with_employee (fields t) ke') = Some ke' ∧
    db2 = assigned db k (fields t) ke'.
Proof.
  intros Ht Hv He Hv' He'.
  destruct (update_complete request pk db t v ke e Ht Hv He)
    as (k & Hid & Hrow & Hupd).
  set (db1 := assigned db k (fields t) ke) in *.
  set (t1 := set_employee t ke).
  assert (ORM.ServiceTicket_get int db1 pk = Ok t1) as Ht1.
  { apply ServiceTicket_get_Ok. apply ServiceTicket_get_Ok in Ht as (k0 & Hk0 & _ & Hid0).
    exists k. split_and!.
    - congruence.
    - simpl. apply lookup_insert_eq.
    - done. }
  destruct (update_complete request' pk db1 t1 v' ke' e' Ht1 Hv' He')
    as (k1 & Hid1 & Hrow1 & Hupd1).
  simpl in Hid1. assert (k1 = k) as -> by congruence.
  exists k, db1, (assigned db1 k (fields t1) ke'). split_and!; try done.
  - simpl. apply lookup_insert_eq.
  - unfold assigned, with_employee. simpl. f_equal. apply insert_insert_eq.
Qed.

(** C7: a successful [update] changes nothing but the employee reference
    of the ticket named by the request: that ticket keeps its key, its
    description, emergency, date_completed and customer; every other
    ticket, and the employee and customer tables, are as before. *)
Theorem update_frame request pk db response db' :
  TicketView.update int request pk db = (Ok response, db') →
  ∃ k row row',
    ORM.to_pk int pk = Ok (Some k) ∧
    tickets db !! k = Some row ∧
    tickets db' !! k = Some row' ∧
    description row' = description row ∧
    emergency row' = emergency row ∧
    date_completed row' = date_completed row ∧
    customer row' = customer row ∧
    (∀ j, j ≠ k → tickets db' !! j = tickets db !! j) ∧
    dom (tickets db') = dom (tickets db) ∧
    employees db' = employees db ∧
    customers db' = customers db.
Proof.
  intros Hrun.
  apply update_Ok_inv in Hrun
    as (t & k & v & ke & e & Ht & Hid & Hrow & _ & _ & _ & _ & ->).
  apply ServiceTicket_get_Ok in Ht as (k0 & Hk0 & _ & Hid0).
  assert (k0 = k) as -> by congruence.
  exists k, (fields t), (with_employee (fields t) ke). simpl. split_and!; try done.
  - apply lookup_insert_eq.
  - intros j Hj. by apply lookup_insert_ne.
  - by apply dom_insert_lookup_L.
Qed.

(** C9: an [update] of an existing ticket that fails, because the payload
    has no [employee] or because its [employee] does not resolve to an
    existing employee, leaves every table, and so the stored ticket, as it
    was; what escapes is [KeyError], [Employee.DoesNotExist] or, for text
    that is not a number, [ValueError]. *)
Theorem update_failure_changes_nothing request pk db t :
  ORM.ServiceTicket_get int db pk = Ok t →
  data request !! "employee" = None ∨
  (∃ v, data request !! "employee" = Some v ∧
        ∀ ke, ORM.to_pk int v = Ok (Some ke) → employees db !! ke = None) →
  ∃ exc, TicketView.update int request pk db = (Raise exc, db) ∧
         (exc = KeyError "employee" ∨ exc = Employee_DoesNotExist ∨
          exc = ValueError).
Proof.
  intros Ht [Hv | (v & Hv & Hun)]; run_view; unfold getitem; rewrite Ht, Hv; simpl.
  - exists (KeyError "employee"). auto.
  - destruct (ORM.Employee_get int db v) as [[ke e]|exc] eqn:He.
    + apply get_pk_Ok in He as [Hke He]. rewrite (Hun ke Hke) in He. done.
    + exists exc. split; [done|]. apply get_pk_Raise in He. tauto.
Qed.

End Update.

Lemma update_assigns_employee_witness :
  ∃ db2, TicketView.update Sample.int
           (Sample.request Sample.staff ∅ {[ "employee" := VInt 4 ]}) (VInt 1)
           (TicketView.update Sample.int
              (Sample.request Sample.staff ∅ {[ "employee" := VInt 3 ]}) (VInt 1)
              Sample.db).2
         = (Ok {| body := NoBody; status := 204 |}, db2) ∧
         employee <$> tickets db2 !! 1 = Some (Some 4).
Proof.
  destruct (update_assigns_employee Sample.int
    (Sample.request Sample.staff ∅ {[ "employee" := VInt 3 ]})
    (Sample.request Sample.staff ∅ {[ "employee" := VInt 4 ]})
    (VInt 1) Sample.db
    {| ticket_id := Some 1;
       fields := {| description := VStr "leaky faucet"; emergency := VBool false;
                    date_completed := None; employee := None; customer := 1 |} |}
    (VInt 3) 3 {| specialty := "doors"; employee_full_name := "Emma Beaton" |}
    (VInt 4) 4 {| specialty := "pipes"; employee_full_name := "Ryan Tanay" |})
    as (k & db1 & db2 & Hid & H1 & _ & _ & H2 & Hrow & _ & _);
    [vm_compute; reflexivity..|].
  assert (k = 1) as -> by (simpl in Hid; congruence).
  exists db2. rewrite H1. simpl. split; [exact H2|]. rewrite Hrow. reflexivity.
Defined.

Lemma update_frame_witness :
  ∃ row', tickets (TicketView.update Sample.int
                     (Sample.request Sample.staff ∅ {[ "employee" := VInt 4 ]})
                     (VInt 1) Sample.db).2 !! 1 = Some row' ∧
          description row' = VStr "leaky faucet" ∧
          customer row' = 1.
Proof.
  destruct (update_frame Sample.int
    (Sample.request Sample.staff ∅ {[ "employee" := VInt 4 ]}) (VInt 1) Sample.db
    {| body := NoBody; status := 204 |}
    (TicketView.update Sample.int
       (Sample.request Sample.staff ∅ {[ "employee" := VInt 4 ]})
       (VInt 1) Sample.db).2)
    as (k & row & row' & Hk & Hrow & Hrow' & Hd & _ & _ & Hc & _);
    [vm_compute; reflexivity|].
  assert (k = 1) as -> by (simpl in Hk; congruence).
  assert (row = {| description := VStr "leaky faucet"; emergency := VBool false;
                   date_completed := None; employee := None; customer := 1 |})
    as -> by (vm_compute in Hrow; congruence).
  exists row'. split_and!; [exact Hrow' | exact Hd | exact Hc].
Defined.

Lemma update_failure_changes_nothing_witness :
  ∃ exc, TicketView.update Sample.int
           (Sample.request Sample.staff ∅ {[ "employee" := VInt 8 ]}) (VInt 1)
           Sample.db = (Raise exc, Sample.db).
Proof.
  destruct (update_failure_changes_nothing Sample.int
    (Sample.request Sample.staff ∅ {[ "employee" := VInt 8 ]}) (VInt 1) Sample.db
    {| ticket_id := Some 1;
       fields := {| description := VStr "leaky faucet"; emergency := VBool false;
                    date_completed := None; employee := None; customer := 1 |} |})
    as (exc & Hrun & _).
  - vm_compute. reflexivity.
  - right. exists (VInt 8). split; [vm_compute; reflexivity|].
    intros ke [= <-]. vm_compute. reflexivity.
  - exists exc. exact Hrun.
Defined.

(** ** [list] *)

(** C3: for a principal that is not staff, [list] answers 200 with the
    representations of exactly the tickets whose customer is the record of
    that principal, and the query parameters, [status] among them, do not
    change the answer. *)
Theorem list_non_staff request db :
  is_staff (auth_user request) = false →
  fk_ok db →
  ∃ reps,
    TicketView.list request db =
      (Ok {| body := Many reps; status := HTTP_200_OK |}, db) ∧
    represents db
      (λ t, ∃ c, linked_customer db (auth_user request) (customer (fields t)) c)
      reps ∧
    ∀ q, TicketView.list {| auth_user := auth_user request;
                            query_params := q;
                            data := data request |} db =
         TicketView.list request db.
Proof.
  intros Hstaff Hfk.
  destruct (serialize_selection db (ORM.owned_by db (auth_user request))
              (ORM.filter_customer_user db (auth_user request)
                 (ORM.ServiceTicket_all db)) Hfk)
    as (reps & Hreps & Hrep & _).
  { apply NoDup_filter, ServiceTicket_all_NoDup. }
  { intros t. unfold ORM.filter_customer_user.
    rewrite list_elem_of_filter, ServiceTicket_all_stored. tauto. }
  exists reps. split_and!.
  - run_view. unfold TicketView.service_tickets. by rewrite Hstaff, Hreps.
  - exact Hrep.
  - intros q. run_view. unfold TicketView.service_tickets. simpl.
    by rewrite Hstaff.
Qed.

Lemma list_non_staff_witness :
  ∃ reps,
    TicketView.list (Sample.request Sample.ann {[ "status" := "done" ]} ∅) Sample.db
    = (Ok {| body := Many reps; status := 200 |}, Sample.db) ∧
    rep_id <$> reps = [Some 1].
Proof.
  destruct (list_non_staff
              (Sample.request Sample.ann {[ "status" := "done" ]} ∅) Sample.db)
    as (reps & Hrun & _ & _).
  - reflexivity.
  - apply (bool_decide_unpack _). vm_compute. exact I.
  - exists reps. split; [exact Hrun|].
    vm_compute in Hrun. injection Hrun as <-. reflexivity.
Defined.

(** C4: for a staff principal, [list] answers 200; with [status] equal to
    ["done"] the body holds the representations of exactly the tickets
    whose date_completed is not null, and with [status] absent, ["all"] or
    any other text it holds those of all tickets, as many as the table has
    rows. *)
Theorem list_staff request db :
  is_staff (auth_user request) = true →
  fk_ok db →
  ∃ reps,
    TicketView.list request db =
      (Ok {| body := Many reps; status := HTTP_200_OK |}, db) ∧
    (query_params request !! "status" = Some "done" →
     represents db (λ t, date_completed (fields t) ≠ None) reps) ∧
    (query_params request !! "status" ≠ Some "done" →
     represents db (λ _, True) reps ∧ length reps = size (tickets db)).
Proof.
  intros Hstaff Hfk.
  destruct (decide (query_params request !! "status" = Some "done")) as [Hdone|Hother].
  - destruct (serialize_selection db (λ t, date_completed (fields t) ≠ None)
                (ORM.filter_done (ORM.ServiceTicket_all db)) Hfk)
      as (reps & Hreps & Hrep & _).
    { apply NoDup_filter, ServiceTicket_all_NoDup. }
    { intros t. unfold ORM.filter_done.
      rewrite list_elem_of_filter, ServiceTicket_all_stored. tauto. }
    exists reps. split_and!; [|done|done].
    run_view. unfold TicketView.service_tickets. rewrite Hstaff, Hdone.
    rewrite (decide_True (P := "done" = "done")) by done.
    rewrite (decide_False (P := "done" = "all")) by done. by rewrite Hreps.
  - destruct (serialize_selection db (λ _, True) (ORM.ServiceTicket_all db) Hfk)
      as (reps & Hreps & Hrep & Hlen).
    { apply ServiceTicket_all_NoDup. }
    { intros t. rewrite ServiceTicket_all_stored. tauto. }
    exists reps. split_and!; [|done|].
    + run_view. unfold TicketView.service_tickets. rewrite Hstaff.
      destruct (query_params request !! "status") as [s|] eqn:Hs.
      * rewrite (decide_False (P := s = "done")) by (intros ->; by apply Hother).
        destruct (decide (s = "all")); by rewrite Hreps.
      * by rewrite Hreps.
    + intros _. split; [done|]. by rewrite Hlen, ServiceTicket_all_length.
Qed.

Lemma list_staff_witness :
  ∃ reps,
    TicketView.list (Sample.request Sample.staff {[ "status" := "done" ]} ∅) Sample.db
    = (Ok {| body := Many reps; status := 200 |}, Sample.db) ∧
    rep_id <$> reps = [Some 2].
Proof.
  destruct (list_staff
              (Sample.request Sample.staff {[ "status" := "done" ]} ∅) Sample.db)
    as (reps & Hrun & _ & _).
  - reflexivity.
  - apply (bool_decide_unpack _). vm_compute. exact I.
  - exists reps. split; [exact Hrun|].
    vm_compute in Hrun. injection Hrun as <-. reflexivity.
Defined.

(** ** No check of the principal on a single ticket *)

(** C8: [retrieve], [update] and [destroy] do not look at the principal:
    with the same ticket id, payload and tables, two requests of different
    principals, staff or not, owner of the ticket or not, have the same
    outcome, the same answer and the same effect on the tables. *)
Theorem detail_handlers_ignore_principal int u u' q d pk db :
  TicketView.retrieve int {| auth_user := u; query_params := q; data := d |} pk db =
  TicketView.retrieve int {| auth_user := u'; query_params := q; data := d |} pk db ∧
  TicketView.update int {| auth_user := u; query_params := q; data := d |} pk db =
  TicketView.update int {| auth_user := u'; query_params := q; data := d |} pk db ∧
  TicketView.destroy int {| auth_user := u; query_params := q; data := d |} pk db =
  TicketView.destroy int {| auth_user := u'; query_params := q; data := d |} pk db.
Proof. split_and!; reflexivity. Qed.

(** A principal who is not staff and does not own ticket 2 gets its
    representation all the same, although [list] does not show it to
    them. *)
Example stranger_retrieves_foreign_ticket :
  TicketView.retrieve Sample.int (Sample.request Sample.stranger ∅ ∅) (VInt 2) Sample.db
  = TicketView.retrieve Sample.int (Sample.request Sample.bo ∅ ∅) (VInt 2) Sample.db ∧
  http_status
    (TicketView.retrieve Sample.int (Sample.request Sample.stranger ∅ ∅) (VInt 2)
       Sample.db).1 = 200 ∧
  (TicketView.list (Sample.request Sample.stranger ∅ ∅) Sample.db).1
  = Ok {| body := Many []; status := 200 |}.
Proof. vm_compute. split_and!; reflexivity. Qed.

(** ** Integrity is kept

    Each handler leaves the references of the tickets intact, so tables
    reached from intact ones by any sequence of requests are intact. *)

Lemma create_fk_ok request db r db' :
  TicketView.create request db = (r, db') → fk_ok db → fk_ok db'.
Proof.
  intros Hrun Hfk.
  destruct (ORM.Customer_get db (auth_user request)) as [[k c]|e] eqn:Hc;
    [|revert Hrun; run_view; rewrite Hc; by intros [= _ <-]].
  destruct (data request !! "description") as [v1|] eqn:Hv1;
    [|revert Hrun; run_view; unfold getitem; rewrite Hc, Hv1; by intros [= _ <-]].
  destruct (data request !! "emergency") as [v2|] eqn:Hv2;
    [|revert Hrun; run_view; unfold getitem; rewrite Hc, Hv1, Hv2; by intros [= _ <-]].
  rewrite (create_complete request db v1 v2 k c Hv1 Hv2 Hc) in Hrun.
  injection Hrun as _ <-.
  apply Customer_get_Ok in Hc as [Hc _].
  unfold fk_ok. simpl. apply map_Forall_insert_2; [|done].
  simpl. by rewrite Hc.
Qed.

Lemma update_fk_ok int request pk db r db' :
  TicketView.update int request pk db = (r, db') → fk_ok db → fk_ok db'.
Proof.
  intros Hrun Hfk. destruct r as [response|e].
  - apply update_Ok_inv in Hrun
      as (t & k & v & ke & e & _ & _ & Hrow & _ & _ & He & _ & ->).
    unfold fk_ok. simpl. apply map_Forall_insert_2; [|done].
    apply Hfk in Hrow as [Hc _]. simpl. by rewrite He.
  - revert Hrun. run_view. unfold getitem, ORM.save.
    destruct (ORM.ServiceTicket_get int db pk); [|by intros [= _ <-]].
    destruct (data request !! "employee"); [|by intros [= _ <-]].
    destruct (ORM.Employee_get int db _); simpl; [done|by intros [= _ <-]].
Qed.

Lemma destroy_fk_ok int request pk db r db' :
  TicketView.destroy int request pk db = (r, db') → fk_ok db → fk_ok db'.
Proof.
  intros Hrun Hfk. revert Hrun. run_view. unfold ORM.delete.
  destruct (ORM.ServiceTicket_get int db pk) as [t|e]; [|by intros [= _ <-]].
  destruct (ticket_id t) as [k|]; intros [= _ <-]; [|done].
  unfold fk_ok. simpl. by apply map_Forall_delete.
Qed.

(** ** A run through the handlers

    Ann creates a ticket and is answered 201 with a null employee and her
    customer record; staff then sees it in the list with [status] equal to
    ["all"], assigns employee 3 (204), and Ann's [retrieve] shows employee
    3. *)
Example create_list_update_retrieve :
  let payload : gmap string value :=
    {[ "description" := VStr "leaky faucet"; "emergency" := VBool false ]} in
  let created := TicketView.create (Sample.request Sample.ann ∅ payload) Sample.db in
  let listed :=
    TicketView.list (Sample.request Sample.staff {[ "status" := "all" ]} ∅) created.2 in
  let updated :=
    TicketView.update Sample.int
      (Sample.request Sample.staff ∅ {[ "employee" := VInt 3 ]}) (VInt 3) listed.2 in
  let retrieved :=
    TicketView.retrieve Sample.int (Sample.request Sample.ann ∅ ∅) (VInt 3) updated.2 in
  (∃ rep, created.1 = Ok {| body := One rep; status := 201 |} ∧
          rep_id rep = Some 3 ∧ rep_employee rep = None ∧
          customer_rep_id (rep_customer rep) = 1) ∧
  (∃ reps, listed.1 = Ok {| body := Many reps; status := 200 |} ∧
           Some 3 ∈ rep_id <$> reps) ∧
  updated.1 = Ok {| body := NoBody; status := 204 |} ∧
  (∃ rep, retrieved.1 = Ok {| body := One rep; status := 200 |} ∧
          employee_rep_id <$> rep_employee rep = Some 3).
Proof.
  vm_compute. split_and!; try done.
  - eexists. split_and!; reflexivity.
  - eexists. split; [reflexivity|]. apply list_elem_of_here.
  - eexists. split; reflexivity.
Qed.

(** * Further properties of the handlers *)

(** ** What a lookup and a serialization return *)

Lemma ServiceTicket_get_found int db pk k row :
  ORM.to_pk int pk = Ok (Some k) →
  tickets db !! k = Some row →
  ORM.ServiceTicket_get int db pk = Ok {| ticket_id := Some k; fields := row |}.
Proof.
  intros Hk Hrow. apply ServiceTicket_get_Ok. by exists k.
Qed.

Lemma ServiceTicket_get_missing int db pk k :
  ORM.to_pk int pk = Ok (Some k) →
  tickets db !! k = None →
  ORM.ServiceTicket_get int db pk = Raise ServiceTicket_DoesNotExist.
Proof.
  intros Hk Hrow. unfold ORM.ServiceTicket_get, ORM.get_pk.
  rewrite Hk. simpl. by rewrite Hrow.
Qed.

Lemma TicketSerializer_Ok_inv db t rep :
  TicketSerializer db t = Ok rep →
  ∃ c, customers db !! customer (fields t) = Some c ∧
       (∀ ke, employee (fields t) = Some ke → is_Some (employees db !! ke)) ∧
       rep = {| rep_id := ticket_id t;
                rep_description := description (fields t);
                rep_emergency := emergency (fields t);
                rep_date_completed := date_completed (fields t);
                rep_employee :=
                  employee (fields t) ≫= λ ke,
                    TicketEmployeeSerializer ke <$> employees db !! ke;
                rep_customer :=
                  TicketCustomerSerializer (customer (fields t)) c |}.
Proof.
  unfold TicketSerializer.
  destruct (employee (fields t)) as [ke|] eqn:Hke; simpl.
  - destruct (employees db !! ke) as [e|] eqn:He; simpl; [|done].
    destruct (customers db !! customer (fields t)) as [c|]; simpl; [|done].
    intros [= <-]. exists c. split_and!; [done| |done].
    intros ke' [= <-]. by rewrite He.
  - destruct (customers db !! customer (fields t)) as [c|]; simpl; [|done].
    intros [= <-]. exists c. split_and!; done.
Qed.

(** ** [retrieve] and [destroy] on an existing ticket *)

Lemma retrieve_found int request pk db k row c :
  ORM.to_pk int pk = Ok (Some k) →
  tickets db !! k = Some row →
  customers db !! customer row = Some c →
  (∀ ke, employee row = Some ke → is_Some (employees db !! ke)) →
  TicketView.retrieve int request pk db =
    (Ok {| body := One
             {| rep_id := Some k;
                rep_description := description row;
                rep_emergency := emergency row;
                rep_date_completed := date_completed row;
                rep_employee :=
                  employee row ≫= λ ke,
                    TicketEmployeeSerializer ke <$> employees db !! ke;
                rep_customer := TicketCustomerSerializer (customer row) c |};
           status := HTTP_200_OK |}, db).
Proof.
  intros Hk Hrow Hc He. run_view.
  rewrite (ServiceTicket_get_found int db pk k row Hk Hrow).
  unfold TicketSerializer. simpl. rewrite Hc.
  destruct (employee row) as [ke|]; simpl; [|done].
  destruct (He ke eq_refl) as [e ->]. done.
Qed.

(** X1: for the id of a stored ticket whose references resolve, [retrieve]
    answers 200 with the representation of that ticket: its id is the
    requested one, its scalar fields are the row's, the customer is the
    referenced record and the employee is the referenced record or null;
    the tables are not changed. *)
Theorem retrieve_existing int request pk db k row c :
  ORM.to_pk int pk = Ok (Some k) →
  tickets db !! k = Some row →
  customers db !! customer row = Some c →
  (∀ ke, employee row = Some ke → is_Some (employees db !! ke)) →
  TicketView.retrieve int request pk db =
    (Ok {| body := One
             {| rep_id := Some k;
                rep_description := description row;
                rep_emergency := emergency row;
                rep_date_completed := date_completed row;
                rep_employee :=
                  employee row ≫= λ ke,
                    TicketEmployeeSerializer ke <$> employees db !! ke;
                rep_customer := TicketCustomerSerializer (customer row) c |};
           status := HTTP_200_OK |}, db).
Proof. apply retrieve_found. Qed.

Lemma retrieve_existing_witness :
  ∃ rep, TicketView.retrieve Sample.int (Sample.request Sample.bo ∅ ∅) (VInt 2)
           Sample.db
         = (Ok {| body := One rep; status := 200 |}, Sample.db) ∧
         rep_id rep = Some 2.
Proof.
  eexists. split.
  - apply (retrieve_existing Sample.int (Sample.request Sample.bo ∅ ∅) (VInt 2)
             Sample.db 2
             {| description := VStr "broken door"; emergency := VBool true;
                date_completed := Some "2023-01-01"; employee := Some 3;
                customer := 2 |}
             {| address := "2 Oak Ave"; customer_full_name := "Bo Diaz";
                user := 11 |}).
    + reflexivity.
    + vm_compute. reflexivity.
    + vm_compute. reflexivity.
    + intros ke [= <-]. vm_compute. eexists. reflexivity.
  - reflexivity.
Defined.

(** X2: for the id of a stored ticket, [destroy] answers 204 with an empty
    body and removes that ticket and nothing else: the id is gone, every
    other ticket is as before, the table has one row less, and the employee
    and customer tables are untouched. *)
Theorem destroy_existing int request pk db k row :
  ORM.to_pk int pk = Ok (Some k) →
  tickets db !! k = Some row →
  ∃ db',
    TicketView.destroy int request pk db =
      (Ok {| body := NoBody; status := HTTP_204_NO_CONTENT |}, db') ∧
    tickets db' !! k = None ∧
    (∀ j, j ≠ k → tickets db' !! j = tickets db !! j) ∧
    size (tickets db) = S (size (tickets db')) ∧
    employees db' = employees db ∧
    customers db' = customers db.
Proof.
  intros Hk Hrow.
  exists {| tickets := delete k (tickets db);
            employees := employees db; customers := customers db |}.
  split_and!; simpl; try done.
  - run_view. unfold ORM.delete.
    by rewrite (ServiceTicket_get_found int db pk k row Hk Hrow).
  - apply lookup_delete_eq.
  - intros j Hj. by apply lookup_delete_ne.
  - rewrite map_size_delete, Hrow.
    assert (size (tickets db) ≠ 0%nat) as Hne.
    { intros H0. apply map_size_empty_inv in H0. rewrite H0 in Hrow.
      by rewrite lookup_empty in Hrow. }
    destruct (size (tickets db)); [done|]. done.
Qed.

Lemma destroy_existing_witness :
  ∃ db', TicketView.destroy Sample.int (Sample.request Sample.stranger ∅ ∅)
           (VInt 1) Sample.db
         = (Ok {| body := NoBody; status := 204 |}, db') ∧
         tickets db' !! 1 = None ∧
         size (tickets db') = 1%nat.
Proof.
  destruct (destroy_existing Sample.int (Sample.request Sample.stranger ∅ ∅)
              (VInt 1) Sample.db 1
              {| description := VStr "leaky faucet"; emergency := VBool false;
                 date_completed := None; employee := None; customer := 1 |})
    as (db' & Hrun & Hgone & _ & Hsize & _).
  - reflexivity.
  - vm_compute. reflexivity.
  - exists db'. split_and!; [exact Hrun | exact Hgone |].
    assert (size (tickets Sample.db) = 2%nat) as Htwo by (vm_compute; reflexivity).
    rewrite Htwo in Hsize. by injection Hsize.
Defined.

Lemma destroy_Ok_inv int request pk db response db' :
  TicketView.destroy int request pk db = (Ok response, db') →
  ∃ k row, ORM.to_pk int pk = Ok (Some k) ∧
           tickets db !! k = Some row ∧
           response = {| body := NoBody; status := HTTP_204_NO_CONTENT |} ∧
           db' = {| tickets := delete k (tickets db);
                    employees := employees db;
                    customers := customers db |}.
Proof.
  run_view. unfold ORM.delete.
  destruct (ORM.ServiceTicket_get int db pk) as [t|e] eqn:Ht; [|done].
  apply ServiceTicket_get_Ok in Ht as (k & Hk & Hrow & Hid).
  rewrite Hid. intros [= <- <-]. by exists k, (fields t).
Qed.

(** X3: once [destroy] has succeeded for an id, the ticket cannot be
    reached under that id any more: [retrieve], [update] and a second
    [destroy] raise [ServiceTicket.DoesNotExist] and change nothing. *)
Theorem destroy_then_gone int request pk db response db' request' :
  TicketView.destroy int request pk db = (Ok response, db') →
  TicketView.retrieve int request' pk db' = (Raise ServiceTicket_DoesNotExist, db') ∧
  TicketView.update int request' pk db' = (Raise ServiceTicket_DoesNotExist, db') ∧
  TicketView.destroy int request' pk db' = (Raise ServiceTicket_DoesNotExist, db').
Proof.
  intros Hrun. apply destroy_Ok_inv in Hrun as (k & row & Hk & _ & _ & ->).
  assert (ORM.ServiceTicket_get int
            {| tickets := delete k (tickets db); employees := employees db;
               customers := customers db |} pk
          = Raise ServiceTicket_DoesNotExist) as Hget.
  { apply (ServiceTicket_get_missing _ _ _ k Hk). apply lookup_delete_eq. }
  run_view. by rewrite Hget.
Qed.

Lemma destroy_then_gone_witness :
  let db' := (TicketView.destroy Sample.int (Sample.request Sample.staff ∅ ∅)
                (VInt 1) Sample.db).2 in
  TicketView.retrieve Sample.int (Sample.request Sample.ann ∅ ∅) (VInt 1) db'
  = (Raise ServiceTicket_DoesNotExist, db').
Proof.
  refine (proj1 (destroy_then_gone Sample.int (Sample.request Sample.staff ∅ ∅)
                   (VInt 1) Sample.db {| body := NoBody; status := 204 |} _
                   (Sample.request Sample.ann ∅ ∅) _)).
  vm_compute. reflexivity.
Defined.

(** ** How the handlers compose *)

Lemma create_Ok_inv request db response db' :
  TicketView.create request db = (Ok response, db') →
  ∃ k c v_description v_emergency,
    ORM.Customer_get db (auth_user request) = Ok (k, c) ∧
    data request !! "description" = Some v_description ∧
    data request !! "emergency" = Some v_emergency ∧
    response =
      {| body := One {| rep_id := Some (ORM.next_pk (tickets db));
                        rep_description := v_description;
                        rep_emergency := v_emergency;
                        rep_date_completed := None;
                        rep_employee := None;
                        rep_customer := TicketCustomerSerializer k c |};
         status := HTTP_201_CREATED |} ∧
    db' = {| tickets := <[ORM.next_pk (tickets db) :=
                            new_row v_description v_emergency k]> (tickets db);
             employees := employees db;
             customers := customers db |}.
Proof.
  intros Hrun.
  destruct (ORM.Customer_get db (auth_user request)) as [[k c]|e] eqn:Hc;
    [|revert Hrun; run_view; by rewrite Hc].
  destruct (data request !! "description") as [v1|] eqn:Hv1;
    [|revert Hrun; run_view; unfold getitem; by rewrite Hc, Hv1].
  destruct (data request !! "emergency") as [v2|] eqn:Hv2;
    [|revert Hrun; run_view; unfold getitem; by rewrite Hc, Hv1, Hv2].
  rewrite (create_complete request db v1 v2 k c Hv1 Hv2 Hc) in Hrun.
  injection Hrun as <- <-. by exists k, c, v1, v2.
Qed.

(** X4: for a payload with a text [description] and a boolean
    [emergency], the representation [create] answers with is the one a
    following [retrieve] of the new id gives, for any principal: what was
    created can be read back unchanged. *)
Theorem create_then_retrieve int request db response db' request'
    (text : string) (flag : bool) :
  data request !! "description" = Some (VStr text) →
  data request !! "emergency" = Some (VBool flag) →
  TicketView.create request db = (Ok response, db') →
  ∃ k rep,
    body response = One rep ∧
    rep_id rep = Some k ∧
    rep_description rep = VStr text ∧
    rep_emergency rep = VBool flag ∧
    TicketView.retrieve int request' (VInt k) db' =
      (Ok {| body := One rep; status := HTTP_200_OK |}, db').
Proof.
  intros Hd He Hrun.
  apply create_Ok_inv in Hrun as (k & c & v1 & v2 & Hc & Hv1 & Hv2 & -> & ->).
  assert (v1 = VStr text) as -> by congruence.
  assert (v2 = VBool flag) as -> by congruence.
  apply Customer_get_Ok in Hc as [Hc _].
  eexists _, _. split_and!; [done..|].
  apply (retrieve_found int request' (VInt (ORM.next_pk (tickets db))) _
           (ORM.next_pk (tickets db)) (new_row (VStr text) (VBool flag) k) c).
  - done.
  - simpl. apply lookup_insert_eq.
  - done.
  - intros ke. done.
Qed.

Lemma create_then_retrieve_witness :
  let payload : gmap string value :=
    {[ "description" := VStr "no heat"; "emergency" := VBool true ]} in
  let created := TicketView.create (Sample.request Sample.ann ∅ payload) Sample.db in
  ∃ k rep, created.1 = Ok {| body := One rep; status := 201 |} ∧
           TicketView.retrieve Sample.int (Sample.request Sample.bo ∅ ∅) (VInt k)
             created.2
           = (Ok {| body := One rep; status := 200 |}, created.2).
Proof.
  intros payload created.
  assert (∃ rep, created = (Ok {| body := One rep; status := 201 |}, created.2))
    as [rep0 Hcreated] by (vm_compute; eexists; reflexivity).
  destruct (create_then_retrieve Sample.int (Sample.request Sample.ann ∅ payload)
              Sample.db {| body := One rep0; status := 201 |}
              created.2 (Sample.request Sample.bo ∅ ∅) "no heat" true)
    as (k & rep & Hbody & _ & _ & _ & Hget).
  - vm_compute. reflexivity.
  - vm_compute. reflexivity.
  - exact Hcreated.
  - simpl in Hbody. injection Hbody as <-.
    exists k, rep0. split; [|exact Hget]. fold created. by rewrite Hcreated.
Defined.

(** X5: a [destroy] of the id [create] has just answered with undoes the
    [create]: the three tables are again exactly what they were. *)
Theorem create_then_destroy int request db response db' request' :
  TicketView.create request db = (Ok response, db') →
  ∃ k rep,
    body response = One rep ∧
    rep_id rep = Some k ∧
    TicketView.destroy int request' (VInt k) db' =
      (Ok {| body := NoBody; status := HTTP_204_NO_CONTENT |}, db).
Proof.
  intros Hrun.
  apply create_Ok_inv in Hrun as (k & c & v1 & v2 & _ & _ & _ & -> & ->).
  eexists _, _. split_and!; [done..|].
  run_view. unfold ORM.delete.
  rewrite (ServiceTicket_get_found int _ (VInt (ORM.next_pk (tickets db)))
             (ORM.next_pk (tickets db)) (new_row v1 v2 k));
    [|done|simpl; apply lookup_insert_eq].
  simpl. rewrite delete_insert_id by apply next_pk_fresh.
  by destruct db.
Qed.

Lemma create_then_destroy_witness :
  let payload : gmap string value :=
    {[ "description" := VStr "no heat"; "emergency" := VBool true ]} in
  let created := TicketView.create (Sample.request Sample.ann ∅ payload) Sample.db in
  ∃ k, TicketView.destroy Sample.int (Sample.request Sample.ann ∅ ∅) (VInt k)
         created.2
       = (Ok {| body := NoBody; status := 204 |}, Sample.db).
Proof.
  intros payload created.
  destruct (create_then_destroy Sample.int (Sample.request Sample.ann ∅ payload)
              Sample.db (match created.1 with
                         | Ok response => response
                         | Raise _ => {| body := NoBody; status := 0 |}
                         end)
              created.2 (Sample.request Sample.ann ∅ ∅))
    as (k & rep & _ & _ & Hdel).
  - vm_compute. reflexivity.
  - exists k. exact Hdel.
Defined.

(** X6: after a successful [update] on tables whose references are
    intact, [retrieve] of the same id, by any principal, answers 200 with
    the assigned employee in the representation and the ticket's other
    fields as they were before the [update]. *)
Theorem update_then_retrieve int request pk db response db' request' :
  TicketView.update int request pk db = (Ok response, db') →
  fk_ok db →
  ∃ k row v ke e rep,
    tickets db !! k = Some row ∧
    data request !! "employee" = Some v ∧
    ORM.Employee_get int db v = Ok (ke, e) ∧
    TicketView.retrieve int request' pk db' =
      (Ok {| body := One rep; status := HTTP_200_OK |}, db') ∧
    rep_employee rep = Some (TicketEmployeeSerializer ke e) ∧
    rep_id rep = Some k ∧
    rep_description rep = description row ∧
    rep_emergency rep = emergency row ∧
    rep_date_completed rep = date_completed row ∧
    customer_rep_id (rep_customer rep) = customer row.
Proof.
  intros Hrun Hfk.
  apply update_Ok_inv in Hrun
    as (t & k & v & ke & e & Ht & Hid & Hrow & Hv & Hget & He & _ & ->).
  apply ServiceTicket_get_Ok in Ht as (k0 & Hk & _ & Hid0).
  assert (k0 = k) as -> by congruence.
  pose proof (Hfk _ _ Hrow) as [[c Hc] _].
  eexists k, (fields t), v, ke, e, _.
  split; [done|]. split; [done|]. split; [done|]. split.
  - apply (retrieve_found int request' pk _ k (with_employee (fields t) ke) c).
    + done.
    + simpl. apply lookup_insert_eq.
    + done.
    + simpl. intros ke' [= <-]. by rewrite He.
  - simpl. rewrite He. done.
Qed.

Lemma update_then_retrieve_witness :
  let updated := TicketView.update Sample.int
                   (Sample.request Sample.staff ∅ {[ "employee" := VInt 4 ]})
                   (VInt 1) Sample.db in
  ∃ rep, TicketView.retrieve Sample.int (Sample.request Sample.ann ∅ ∅) (VInt 1)
           updated.2
         = (Ok {| body := One rep; status := 200 |}, updated.2) ∧
         employee_rep_id <$> rep_employee rep = Some 4.
Proof.
  intros updated.
  destruct (update_then_retrieve Sample.int
              (Sample.request Sample.staff ∅ {[ "employee" := VInt 4 ]})
              (VInt 1) Sample.db {| body := NoBody; status := 204 |}
              updated.2 (Sample.request Sample.ann ∅ ∅))
    as (k & row & v & ke & e & rep & _ & Hv & Hget & Hrun & Hemp & _).
  - vm_compute. reflexivity.
  - apply (bool_decide_unpack _). vm_compute. exact I.
  - exists rep. split; [exact Hrun|]. rewrite Hemp. simpl.
    assert (v = VInt 4) as -> by (vm_compute in Hv; congruence).
    apply get_pk_Ok in Hget as [Hke _]. simpl in Hke. congruence.
Defined.

(** X7: [update] is idempotent: repeating a successful [update] succeeds
    with the same answer and leaves the tables as the first one left
    them. *)
Theorem update_idempotent int request pk db response db' :
  TicketView.update int request pk db = (Ok response, db') →
  TicketView.update int request pk db' = (Ok response, db').
Proof.
  intros Hrun.
  apply update_Ok_inv in Hrun
    as (t & k & v & ke & e & Ht & Hid & Hrow & Hv & Hget & He & -> & ->).
  apply ServiceTicket_get_Ok in Ht as (k0 & Hk & _ & Hid0).
  assert (k0 = k) as -> by congruence.
  destruct (update_complete int request pk (assigned db k (fields t) ke)
              {| ticket_id := Some k; fields := with_employee (fields t) ke |}
              v ke e) as (k1 & Hid1 & _ & Hupd).
  - apply ServiceTicket_get_found; [done|]. simpl. apply lookup_insert_eq.
  - done.
  - done.
  - simpl in Hid1. injection Hid1 as <-. rewrite Hupd. f_equal.
    unfold assigned, with_employee. simpl. f_equal. apply insert_insert_eq.
Qed.

Lemma update_idempotent_witness :
  let updated := TicketView.update Sample.int
                   (Sample.request Sample.staff ∅ {[ "employee" := VInt 4 ]})
                   (VInt 1) Sample.db in
  TicketView.update Sample.int
    (Sample.request Sample.staff ∅ {[ "employee" := VInt 4 ]}) (VInt 1) updated.2
  = (Ok {| body := NoBody; status := 204 |}, updated.2).
Proof.
  apply (update_idempotent Sample.int
           (Sample.request Sample.staff ∅ {[ "employee" := VInt 4 ]})
           (VInt 1) Sample.db).
  vm_compute. reflexivity.
Defined.

(** X8: successful [update]s of two different tickets commute: done in
    either order they both succeed and leave the same tables. *)
Theorem update_commute int request1 pk1 request2 pk2 db
    response1 db1 response2 db2 :
  TicketView.update int request1 pk1 db = (Ok response1, db1) →
  TicketView.update int request2 pk2 db = (Ok response2, db2) →
  ORM.to_pk int pk1 ≠ ORM.to_pk int pk2 →
  ∃ db12,
    TicketView.update int request2 pk2 db1 = (Ok response2, db12) ∧
    TicketView.update int request1 pk1 db2 = (Ok response1, db12).
Proof.
  intros Hrun1 Hrun2 Hne.
  apply update_Ok_inv in Hrun1
    as (t1 & k1 & v1 & ke1 & e1 & Ht1 & Hid1 & Hrow1 & Hv1 & Hget1 & _ & -> & ->).
  apply update_Ok_inv in Hrun2
    as (t2 & k2 & v2 & ke2 & e2 & Ht2 & Hid2 & Hrow2 & Hv2 & Hget2 & _ & -> & ->).
  apply ServiceTicket_get_Ok in Ht1 as (k1' & Hk1 & _ & Hid1').
  apply ServiceTicket_get_Ok in Ht2 as (k2' & Hk2 & _ & Hid2').
  assert (k1' = k1) as -> by congruence.
  assert (k2' = k2) as -> by congruence.
  assert (k1 ≠ k2) as Hk by congruence.
  destruct (update_complete int request2 pk2 (assigned db k1 (fields t1) ke1)
              {| ticket_id := Some k2; fields := fields t2 |} v2 ke2 e2)
    as (k & Hidk & _ & Hupd2); [|done|done|].
  { apply ServiceTicket_get_found; [done|]. simpl.
    by rewrite lookup_insert_ne. }
  destruct (update_complete int request1 pk1 (assigned db k2 (fields t2) ke2)
              {| ticket_id := Some k1; fields := fields t1 |} v1 ke1 e1)
    as (k' & Hidk' & _ & Hupd1); [|done|done|].
  { apply ServiceTicket_get_found; [done|]. simpl.
    by rewrite lookup_insert_ne. }
  simpl in Hidk, Hidk'. injection Hidk as <-. injection Hidk' as <-.
  eexists. split; [exact Hupd2|]. rewrite Hupd1. f_equal.
  unfold assigned. simpl. f_equal. by apply insert_insert_ne.
Qed.

Lemma update_commute_witness :
  let r1 := Sample.request Sample.staff ∅ {[ "employee" := VInt 4 ]} in
  let r2 := Sample.request Sample.staff ∅ {[ "employee" := VInt 3 ]} in
  ∃ db12,
    TicketView.update Sample.int r2 (VInt 2)
      (TicketView.update Sample.int r1 (VInt 1) Sample.db).2
    = (Ok {| body := NoBody; status := 204 |}, db12) ∧
    TicketView.update Sample.int r1 (VInt 1)
      (TicketView.update Sample.int r2 (VInt 2) Sample.db).2
    = (Ok {| body := NoBody; status := 204 |}, db12).
Proof.
  intros r1 r2.
  apply (update_commute Sample.int r1 (VInt 1) r2 (VInt 2) Sample.db).
  - vm_compute. reflexivity.
  - vm_compute. reflexivity.
  - discriminate.
Defined.

(** ** What a request can and cannot do to the tables *)

Lemma list_run request db :
  TicketView.list request db =
    (rbind (rmap (TicketSerializer db) (TicketView.service_tickets request db))
           (λ reps, Ok {| body := Many reps; status := HTTP_200_OK |}), db).
Proof.
  run_view. by destruct (rmap _ _).
Qed.

Lemma retrieve_run int request pk db :
  TicketView.retrieve int request pk db =
    (rbind (ORM.ServiceTicket_get int db pk) (λ t,
       rbind (TicketSerializer db t) (λ rep,
         Ok {| body := One rep; status := HTTP_200_OK |})), db).
Proof.
  run_view. destruct (ORM.ServiceTicket_get int db pk) as [t|e]; simpl; [|done].
  by destruct (TicketSerializer db t).
Qed.

(** X9: the two reading handlers never write: whatever [list] and
    [retrieve] answer, the three tables are the same afterwards. *)
Theorem reads_never_write int request pk db :
  (TicketView.list request db).2 = db ∧
  (TicketView.retrieve int request pk db).2 = db.
Proof.
  by rewrite list_run, retrieve_run.
Qed.

(** ** What [list] shows *)

Lemma service_tickets_sublist request db :
  TicketView.service_tickets request db `sublist_of` ORM.ServiceTicket_all db.
Proof.
  unfold TicketView.service_tickets.
  destruct (is_staff (auth_user request)).
  - destruct (query_params request !! "status") as [s|]; [|done].
    destruct (decide (s = "done")).
    + destruct (decide (s = "all")); apply sublist_filter.
    + by destruct (decide (s = "all")).
  - apply sublist_filter.
Qed.

Lemma ServiceTicket_all_ids_NoDup db :
  NoDup (ticket_id <$> ORM.ServiceTicket_all db).
Proof.
  unfold ORM.ServiceTicket_all. rewrite <- list_fmap_compose.
  assert ((ticket_id ∘ (λ r : Z * TicketRow,
             {| ticket_id := Some r.1; fields := r.2 |}))
          <$> map_to_list (tickets db)
          = Some <$> (map_to_list (tickets db)).*1) as ->.
  { rewrite <- list_fmap_compose. by apply list_fmap_ext. }
  apply NoDup_fmap_2; [apply _|]. apply NoDup_fst_map_to_list.
Qed.

Lemma serialized_ids db ts reps :
  Forall2 (λ t rep, TicketSerializer db t = Ok rep) ts reps →
  rep_id <$> reps = ticket_id <$> ts.
Proof.
  induction 1 as [|t rep ts reps Ht _ IH]; [done|].
  rewrite !fmap_cons, IH. f_equal.
  by apply TicketSerializer_Ok_inv in Ht as (c & _ & _ & ->).
Qed.

Lemma serialized_elem db ts reps rep :
  Forall2 (λ t rep, TicketSerializer db t = Ok rep) ts reps →
  rep ∈ reps → ∃ t, t ∈ ts ∧ TicketSerializer db t = Ok rep.
Proof.
  induction 1 as [|t rep' ts reps Ht _ IH]; intros Hin.
  - by apply not_elem_of_nil in Hin.
  - apply elem_of_cons in Hin as [-> | Hin].
    + exists t. split; [apply list_elem_of_here|done].
    + destruct (IH Hin) as (t' & Hin' & Ht').
      exists t'. split; [by apply list_elem_of_further|done].
Qed.

Lemma serialized_elem_of db ts reps t :
  Forall2 (λ t rep, TicketSerializer db t = Ok rep) ts reps →
  t ∈ ts → ∃ rep, rep ∈ reps ∧ TicketSerializer db t = Ok rep.
Proof.
  induction 1 as [|t' rep ts reps Ht _ IH]; intros Hin.
  - by apply not_elem_of_nil in Hin.
  - apply elem_of_cons in Hin as [-> | Hin].
    + exists rep. split; [apply list_elem_of_here|done].
    + destruct (IH Hin) as (rep' & Hin' & Ht').
      exists rep'. split; [by apply list_elem_of_further|done].
Qed.

Lemma list_Ok_inv request db response db' :
  TicketView.list request db = (Ok response, db') →
  db' = db ∧
  ∃ reps, response = {| body := Many reps; status := HTTP_200_OK |} ∧
          Forall2 (λ t rep, TicketSerializer db t = Ok rep)
                  (TicketView.service_tickets request db) reps.
Proof.
  rewrite list_run.
  destruct (rmap _ _) as [reps|e] eqn:Hm; simpl; [|done].
  intros [= <- <-]. split; [done|]. exists reps. split; [done|].
  by apply rmap_Ok.
Qed.

(** X13: every entry of a [list] answer is the representation of a stored
    ticket, carrying that ticket's id, and no ticket is listed twice: the
    ids in the answer are pairwise different. *)
Theorem list_entries request db response db' :
  TicketView.list request db = (Ok response, db') →
  ∃ reps,
    body response = Many reps ∧
    NoDup (rep_id <$> reps) ∧
    ∀ rep, rep ∈ reps →
      ∃ k row, rep_id rep = Some k ∧
               tickets db !! k = Some row ∧
               TicketSerializer db {| ticket_id := Some k; fields := row |} = Ok rep.
Proof.
  intros Hrun. apply list_Ok_inv in Hrun as (-> & reps & -> & Hall).
  exists reps. split_and!; [done| |].
  - rewrite (serialized_ids _ _ _ Hall).
    eapply sublist_NoDup; [apply ServiceTicket_all_ids_NoDup|].
    apply fmap_sublist, service_tickets_sublist.
  - intros rep Hin.
    destruct (serialized_elem _ _ _ _ Hall Hin) as (t & Ht & Hser).
    eapply elem_of_sublist in Ht; [|apply service_tickets_sublist].
    apply ServiceTicket_all_stored in Ht as (k & Hid & Hrow).
    exists k, (fields t). destruct t as [i f]; simpl in *; subst i.
    split_and!; [|done..].
    by apply TicketSerializer_Ok_inv in Hser as (c & _ & _ & ->).
Qed.

Lemma list_entries_witness :
  ∃ reps, (TicketView.list (Sample.request Sample.staff ∅ ∅) Sample.db).1
          = Ok {| body := Many reps; status := 200 |} ∧
          NoDup (rep_id <$> reps).
Proof.
  destruct (list_entries (Sample.request Sample.staff ∅ ∅) Sample.db
              (match (TicketView.list (Sample.request Sample.staff ∅ ∅) Sample.db).1 with
               | Ok response => response
               | Raise _ => {| body := NoBody; status := 0 |}
               end) Sample.db)
    as (reps & Hbody & Hnd & _).
  - vm_compute. reflexivity.
  - exists reps. split; [|exact Hnd].
    vm_compute in Hbody. injection Hbody as <-. vm_compute. reflexivity.
Defined.

Lemma rmap_sublist {A B} (f : A → Result B) l1 l2 ys2 :
  l1 `sublist_of` l2 →
  rmap f l2 = Ok ys2 →
  ∃ ys1, rmap f l1 = Ok ys1 ∧ ys1 `sublist_of` ys2.
Proof.
  intros Hsub. revert ys2.
  induction Hsub as [|x l1 l2 _ IH|x l1 l2 _ IH]; intros ys2; simpl.
  - intros [= <-]. by exists [].
  - destruct (f x) as [y|]; simpl; [|done].
    destruct (rmap f l2) as [ys|]; simpl; [|done].
    intros [= <-]. destruct (IH ys eq_refl) as (ys1 & -> & Hs).
    exists (y :: ys1). split; [done|]. by apply sublist_skip.
  - destruct (f x) as [y|]; simpl; [|done].
    destruct (rmap f l2) as [ys|]; simpl; [|done].
    intros [= <-]. destruct (IH ys eq_refl) as (ys1 & -> & Hs).
    exists ys1. split; [done|]. by apply sublist_cons.
Qed.

(** X14: nobody is shown more than staff without the ["done"] filter:
    when that [list] succeeds, the [list] of any other request on the same
    tables succeeds too, and each of its entries is an entry of the staff
    answer. *)
Theorem list_within_staff_list request_staff request db reps_all :
  is_staff (auth_user request_staff) = true →
  query_params request_staff !! "status" ≠ Some "done" →
  TicketView.list request_staff db =
    (Ok {| body := Many reps_all; status := HTTP_200_OK |}, db) →
  ∃ reps,
    TicketView.list request db =
      (Ok {| body := Many reps; status := HTTP_200_OK |}, db) ∧
    ∀ rep, rep ∈ reps → rep ∈ reps_all.
Proof.
  intros Hstaff Hstatus Hrun.
  assert (TicketView.service_tickets request_staff db = ORM.ServiceTicket_all db)
    as Hall.
  { unfold TicketView.service_tickets. rewrite Hstaff.
    destruct (query_params request_staff !! "status") as [s|]; [|done].
    rewrite (decide_False (P := s = "done")) by congruence.
    by destruct (decide (s = "all")). }
  apply list_Ok_inv in Hrun as (_ & reps' & [= <-] & Hser).
  rewrite Hall in Hser. apply rmap_Ok in Hser.
  destruct (rmap_sublist _ _ _ _ (service_tickets_sublist request db) Hser)
    as (reps & Hreps & Hsub).
  exists reps. split.
  - rewrite list_run, Hreps. done.
  - intros rep Hin. by eapply elem_of_sublist.
Qed.

Lemma list_within_staff_list_witness :
  ∃ reps_all reps,
    TicketView.list (Sample.request Sample.staff {[ "status" := "all" ]} ∅) Sample.db
    = (Ok {| body := Many reps_all; status := 200 |}, Sample.db) ∧
    TicketView.list (Sample.request Sample.bo ∅ ∅) Sample.db
    = (Ok {| body := Many reps; status := 200 |}, Sample.db) ∧
    ∀ rep, rep ∈ reps → rep ∈ reps_all.
Proof.
  assert (∃ reps_all,
            TicketView.list (Sample.request Sample.staff {[ "status" := "all" ]} ∅)
              Sample.db
            = (Ok {| body := Many reps_all; status := 200 |}, Sample.db))
    as [reps_all Hall] by (vm_compute; eexists; reflexivity).
  destruct (list_within_staff_list
              (Sample.request Sample.staff {[ "status" := "all" ]} ∅)
              (Sample.request Sample.bo ∅ ∅) Sample.db reps_all)
    as (reps & Hrun & Hsub).
  - reflexivity.
  - vm_compute. discriminate.
  - exact Hall.
  - exists reps_all, reps. split; [exact Hall | split; [exact Hrun | exact Hsub]].
Defined.

Lemma filter_none {A} (P : A → Prop) `{∀ x, Decision (P x)} (l : list A) :
  (∀ x, x ∈ l → ¬ P x) → filter P l = [].
Proof.
  induction l as [|x l IH]; intros Hno; [done|].
  rewrite filter_cons, decide_False by (apply Hno, list_elem_of_here).
  apply IH. intros y Hy. by apply Hno, list_elem_of_further.
Qed.

(** X15: a principal that is not staff and has no customer record is
    shown an empty list with status 200, whatever the tables hold; the
    missing record is an error for [create] only. *)
Theorem list_without_customer request db :
  is_staff (auth_user request) = false →
  (∀ k c, ¬ linked_customer db (auth_user request) k c) →
  TicketView.list request db =
    (Ok {| body := Many []; status := HTTP_200_OK |}, db) ∧
  TicketView.create request db = (Raise Customer_DoesNotExist, db).
Proof.
  intros Hstaff Hnone. split.
  - rewrite list_run. unfold TicketView.service_tickets, ORM.filter_customer_user.
    rewrite Hstaff, filter_none; [done|].
    intros t _ (c & Hc & Hu). by apply (Hnone (customer (fields t)) c).
  - run_view. by rewrite (Customer_get_none _ _ Hnone).
Qed.

Lemma list_without_customer_witness :
  TicketView.list (Sample.request Sample.stranger ∅ ∅) Sample.db
  = (Ok {| body := Many []; status := 200 |}, Sample.db).
Proof.
  refine (proj1 (list_without_customer (Sample.request Sample.stranger ∅ ∅)
                   Sample.db _ _)).
  - reflexivity.
  - intros k c [Hc Hu].
    assert (map_Forall (λ (_ : Z) (c : CustomerRow), user c ≠ 12)
                       (customers Sample.db)) as Hall
      by (apply (bool_decide_unpack _); vm_compute; exact I).
    exact (Hall k c Hc Hu).
Defined.

(** X16: on tables where a [destroy] has succeeded for an id, no [list]
    answer, for any principal and any parameters, has an entry with that
    id. *)
Theorem destroy_then_not_listed int request pk db response db'
    request' response' db'' :
  TicketView.destroy int request pk db = (Ok response, db') →
  TicketView.list request' db' = (Ok response', db'') →
  ∃ k reps,
    ORM.to_pk int pk = Ok (Some k) ∧
    body response' = Many reps ∧
    Some k ∉ rep_id <$> reps.
Proof.
  intros Hdel Hlist.
  apply destroy_Ok_inv in Hdel as (k & row & Hk & _ & _ & ->).
  apply list_Ok_inv in Hlist as (_ & reps & -> & Hall).
  exists k, reps. split_and!; [done..|].
  rewrite (serialized_ids _ _ _ Hall). intros Hin.
  apply list_elem_of_fmap in Hin as (t & Hid & Ht).
  eapply elem_of_sublist in Ht; [|apply service_tickets_sublist].
  apply ServiceTicket_all_stored in Ht as (k' & Hid' & Hrow).
  simpl in Hrow. assert (k' = k) as -> by congruence.
  by rewrite lookup_delete_eq in Hrow.
Qed.

Lemma destroy_then_not_listed_witness :
  let db' := (TicketView.destroy Sample.int (Sample.request Sample.staff ∅ ∅)
                (VInt 1) Sample.db).2 in
  ∃ reps, (TicketView.list (Sample.request Sample.ann ∅ ∅) db').1
          = Ok {| body := Many reps; status := 200 |} ∧
          Some 1 ∉ rep_id <$> reps.
Proof.
  intros db'.
  destruct (destroy_then_not_listed Sample.int (Sample.request Sample.staff ∅ ∅)
              (VInt 1) Sample.db {| body := NoBody; status := 204 |} db'
              (Sample.request Sample.ann ∅ ∅)
              {| body := Many []; status := 200 |} db')
    as (k & reps & Hk & Hbody & Hnot).
  - vm_compute. reflexivity.
  - vm_compute. reflexivity.
  - simpl in Hbody. injection Hbody as <-. simpl in Hk. injection Hk as <-.
    exists []. split; [vm_compute; reflexivity | exact Hnot].
Defined.

(** X17: a ticket a customer has created is in that customer's [list]
    from then on, whatever the query parameters: on intact tables, after a
    successful [create] by a principal that is not staff, with a text
    [description] and a boolean [emergency], the [list] of the same
    principal succeeds and contains the representation [create] answered
    with. *)
Theorem create_then_listed request db response db' request'
    (text : string) (flag : bool) :
  data request !! "description" = Some (VStr text) →
  data request !! "emergency" = Some (VBool flag) →
  TicketView.create request db = (Ok response, db') →
  fk_ok db →
  is_staff (auth_user request) = false →
  auth_user request' = auth_user request →
  ∃ rep reps,
    body response = One rep ∧
    TicketView.list request' db' =
      (Ok {| body := Many reps; status := HTTP_200_OK |}, db') ∧
    rep ∈ reps.
Proof.
  intros _ _ Hrun Hfk Hstaff Huser.
  pose proof (create_fk_ok _ _ _ _ Hrun Hfk) as Hfk'.
  apply create_Ok_inv in Hrun as (k & c & v1 & v2 & Hc & _ & _ & -> & ->).
  apply Customer_get_Ok in Hc as [Hc Hu].
  set (new := ORM.next_pk (tickets db)) in *.
  set (db' := {| tickets := <[new := new_row v1 v2 k]> (tickets db);
                 employees := employees db; customers := customers db |}) in *.
  set (t := {| ticket_id := Some new; fields := new_row v1 v2 k |}).
  destruct (serialize_selection db' (ORM.owned_by db' (auth_user request'))
              (TicketView.service_tickets request' db') Hfk')
    as (reps & Hreps & _ & _).
  { eapply sublist_NoDup; [apply ServiceTicket_all_NoDup|].
    apply service_tickets_sublist. }
  { intros x. unfold TicketView.service_tickets, ORM.filter_customer_user.
    rewrite Huser, Hstaff, list_elem_of_filter, ServiceTicket_all_stored.
    tauto. }
  assert (t ∈ TicketView.service_tickets request' db') as Hin.
  { unfold TicketView.service_tickets, ORM.filter_customer_user.
    rewrite Huser, Hstaff. apply list_elem_of_filter. split.
    - exists c. simpl. by rewrite Hu.
    - apply ServiceTicket_all_stored. exists new. split; [done|].
      simpl. apply lookup_insert_eq. }
  apply rmap_Ok in Hreps as Hall.
  destruct (serialized_elem_of _ _ _ _ Hall Hin) as (rep & Hrep & Hser).
  exists rep, reps. split_and!.
  - simpl. f_equal. revert Hser. unfold TicketSerializer. simpl. rewrite Hc.
    simpl. by intros [= <-].
  - by rewrite list_run, Hreps.
  - done.
Qed.

Lemma create_then_listed_witness :
  let payload : gmap string value :=
    {[ "description" := VStr "no heat"; "emergency" := VBool true ]} in
  let created := TicketView.create (Sample.request Sample.ann ∅ payload) Sample.db in
  ∃ rep reps,
    created.1 = Ok {| body := One rep; status := 201 |} ∧
    TicketView.list (Sample.request Sample.ann {[ "status" := "done" ]} ∅) created.2
    = (Ok {| body := Many reps; status := 200 |}, created.2) ∧
    rep ∈ reps.
Proof.
  intros payload created.
  assert (∃ rep, created = (Ok {| body := One rep; status := 201 |}, created.2))
    as [rep0 Hcreated] by (vm_compute; eexists; reflexivity).
  destruct (create_then_listed (Sample.request Sample.ann ∅ payload) Sample.db
              {| body := One rep0; status := 201 |} created.2
              (Sample.request Sample.ann {[ "status" := "done" ]} ∅)
              "no heat" true)
    as (rep & reps & Hbody & Hlist & Hin).
  - vm_compute. reflexivity.
  - vm_compute. reflexivity.
  - exact Hcreated.
  - apply (bool_decide_unpack _). vm_compute. exact I.
  - reflexivity.
  - reflexivity.
  - simpl in Hbody. injection Hbody as <-.
    exists rep0, reps. split_and!; [|exact Hlist|exact Hin].
    fold created. by rewrite Hcreated.
Defined.

(** ** Keys, references and representations *)

(** X18: two tickets created one after the other get different ids, both
    are stored afterwards, and the table has grown by two rows. *)
Theorem create_twice request1 request2 db response1 db1 response2 db2 :
  TicketView.create request1 db = (Ok response1, db1) →
  TicketView.create request2 db1 = (Ok response2, db2) →
  ∃ rep1 rep2 k1 k2,
    body response1 = One rep1 ∧ rep_id rep1 = Some k1 ∧
    body response2 = One rep2 ∧ rep_id rep2 = Some k2 ∧
    k1 ≠ k2 ∧
    is_Some (tickets db2 !! k1) ∧
    is_Some (tickets db2 !! k2) ∧
    size (tickets db2) = S (S (size (tickets db))).
Proof.
  intros H1 H2.
  apply create_Ok_inv in H1 as (c1 & r1 & v1 & w1 & _ & _ & _ & -> & ->).
  apply create_Ok_inv in H2 as (c2 & r2 & v2 & w2 & _ & _ & _ & -> & ->).
  simpl.
  set (m := tickets db).
  set (k1 := ORM.next_pk m).
  set (m1 := <[k1 := new_row v1 w1 c1]> m).
  set (k2 := ORM.next_pk m1).
  assert (m !! k1 = None) as Hf1 by apply next_pk_fresh.
  assert (m1 !! k2 = None) as Hf2 by apply next_pk_fresh.
  assert (k1 ≠ k2) as Hne.
  { intros Heq. rewrite <- Heq in Hf2. unfold m1 in Hf2.
    by rewrite lookup_insert_eq in Hf2. }
  eexists _, _, k1, k2. split_and!; try done.
  - rewrite lookup_insert_ne by done. unfold m1. rewrite lookup_insert_eq. done.
  - rewrite lookup_insert_eq. done.
  - rewrite map_size_insert_None by done. unfold m1.
    by rewrite map_size_insert_None.
Qed.

Lemma create_twice_witness :
  let payload : gmap string value :=
    {[ "description" := VStr "no heat"; "emergency" := VBool true ]} in
  let first := TicketView.create (Sample.request Sample.ann ∅ payload) Sample.db in
  let second := TicketView.create (Sample.request Sample.bo ∅ payload) first.2 in
  size (tickets second.2) = 4%nat.
Proof.
  intros payload first second.
  assert (∃ r, first = (Ok r, first.2)) as [r1 H1]
    by (vm_compute; eexists; reflexivity).
  assert (∃ r, second = (Ok r, second.2)) as [r2 H2]
    by (vm_compute; eexists; reflexivity).
  destruct (create_twice (Sample.request Sample.ann ∅ payload)
              (Sample.request Sample.bo ∅ payload) Sample.db
              r1 first.2 r2 second.2 H1 H2)
    as (rep1 & rep2 & k1 & k2 & _ & _ & _ & _ & _ & _ & _ & Hsize).
  rewrite Hsize. vm_compute. reflexivity.
Defined.

(** X19: every handler keeps the references of the tickets intact: from
    tables in which each ticket's customer, and employee if it has one,
    is a stored row, any request leads to tables with the same property. *)
Theorem handlers_keep_references int request pk db :
  fk_ok db →
  fk_ok (TicketView.create request db).2 ∧
  fk_ok (TicketView.update int request pk db).2 ∧
  fk_ok (TicketView.destroy int request pk db).2 ∧
  fk_ok (TicketView.retrieve int request pk db).2 ∧
  fk_ok (TicketView.list request db).2.
Proof.
  intros Hfk. split_and!.
  - destruct (TicketView.create request db) as [r db'] eqn:Hrun.
    by eapply create_fk_ok.
  - destruct (TicketView.update int request pk db) as [r db'] eqn:Hrun.
    by eapply update_fk_ok.
  - destruct (TicketView.destroy int request pk db) as [r db'] eqn:Hrun.
    by eapply destroy_fk_ok.
  - by rewrite retrieve_run.
  - by rewrite list_run.
Qed.

Lemma handlers_keep_references_witness :
  fk_ok (TicketView.update Sample.int
           (Sample.request Sample.staff ∅ {[ "employee" := VInt 4 ]}) (VInt 1)
           Sample.db).2.
Proof.
  refine (proj1 (proj2 (handlers_keep_references Sample.int
            (Sample.request Sample.staff ∅ {[ "employee" := VInt 4 ]}) (VInt 1)
            Sample.db _))).
  apply (bool_decide_unpack _). vm_compute. exact I.
Defined.

(** X21: which key [create] reports missing.  With a customer record for
    the principal, a payload without [description] raises [KeyError] for
    [description], whether or not [emergency] is there; a payload with
    [description] and without [emergency] raises it for [emergency]. *)
Theorem create_first_missing_key request db k c :
  ORM.Customer_get db (auth_user request) = Ok (k, c) →
  (data request !! "description" = None →
   TicketView.create request db = (Raise (KeyError "description"), db)) ∧
  (∀ v, data request !! "description" = Some v →
        data request !! "emergency" = None →
        TicketView.create request db = (Raise (KeyError "emergency"), db)).
Proof.
  intros Hc. split.
  - intros Hd. run_view. unfold getitem. by rewrite Hc, Hd.
  - intros v Hd He. run_view. unfold getitem. by rewrite Hc, Hd, He.
Qed.

Lemma create_first_missing_key_witness :
  TicketView.create (Sample.request Sample.ann ∅ ∅) Sample.db
  = (Raise (KeyError "description"), Sample.db).
Proof.
  refine (proj1 (create_first_missing_key (Sample.request Sample.ann ∅ ∅)
                   Sample.db 1
                   {| address := "1 Main St"; customer_full_name := "Ann Lee";
                      user := 10 |} _) _).
  - vm_compute. reflexivity.
  - vm_compute. reflexivity.
Defined.
